(** * Symmetric arrays: a shallow embedding of SymmetricArray.py

    The module defines two classes, [SymmetricArray] (N x N, a[i,j] = a[j,i])
    and [SymmetricArray3d] (N x N x N, a[i,j,k] = a[j,i,k]), that keep only the
    unique entries in a list of N segments.  The code is Python 2 ([xrange],
    integer [/]).  Python integers are [Z]; a Python list and a numpy array are
    lists indexed the Python way (negative subscripts count from the end, any
    other subscript outside the sequence raises [IndexError]); a statement
    that may raise returns a [result]; a method that mutates [self] returns the
    new [self].  The items of the arrays are an abstract type [A], stored as
    they are given.

    The bodies of the methods are embedded as they are typed, the names they
    look up included.  The docstring of [SymmetricArray.__init__] stands at the
    indentation of its [def]; it is read as the docstring of that method. *)

From Stdlib Require Import ZArith Lia.
From stdpp Require Import base option list strings gmap pretty.

Local Open Scope Z_scope.

(** ** Exceptions and results *)

(** The subscript handed to [__getitem__] / [__setitem__]: [a[3]] passes the
    integer itself, [a[1, 9]] passes a tuple. *)
Inductive keys : Type :=
  | KInt (k : Z)
  | KTuple (ks : list Z).

(** The three ways an [IndexError] arises: the two messages the classes raise
    themselves, and the one raised by the subscript of a list or of an array. *)
Inductive index_error : Type :=
  | WrongNumberOfKeys (k : keys)   (* 'Index '+str(keys)+' has the wrong number of keys.' *)
  | KeyOutOfRange (key : Z)        (* 'Index '+str(key)+' is out of range.' *)
  | SubscriptOutOfRange.           (* raised by the list / the array *)

Inductive exn : Type :=
  | IndexError (e : index_error)
  | NameError (name : string)
  | TypeError
  | ValueError.

Inductive result (T : Type) : Type :=
  | Ok (x : T)
  | Raise (e : exn).
Arguments Ok {T} x.
Arguments Raise {T} e.

#[global] Instance result_ret : MRet result := λ T x, Ok x.
#[global] Instance result_bind : MBind result := λ T U f c,
  match c with
  | Ok x => f x
  | Raise e => Raise e
  end.

Definition is_ok {T} (c : result T) : bool :=
  match c with Ok _ => true | Raise _ => false end.

(** ** Python sequences *)

(** [xrange(start, stop)]. *)
Definition xrange (start stop : Z) : list Z := seqZ start (stop - start).

(** [for x in l: s = body(x, s)], stopping at the first exception. *)
Fixpoint for_in {X S : Type} (l : list X) (body : X → S → result S) (s : S) : result S :=
  match l with
  | [] => Ok s
  | x :: l' => s' ← body x s; for_in l' body s'
  end.

(** The position a subscript [i] denotes in a sequence of [len] items. *)
Definition py_index (len : nat) (i : Z) : option nat :=
  if bool_decide (0 ≤ i < Z.of_nat len) then Some (Z.to_nat i)
  else if bool_decide (- Z.of_nat len ≤ i < 0) then Some (Z.to_nat (Z.of_nat len + i))
  else None.

(** [l[i]] *)
Definition py_getitem {T} (l : list T) (i : Z) : result T :=
  match py_index (length l) i ≫= (l !!.) with
  | Some x => Ok x
  | None => Raise (IndexError SubscriptOutOfRange)
  end.

(** [l[i] = v] *)
Definition py_setitem {T} (l : list T) (i : Z) (v : T) : result (list T) :=
  match py_index (length l) i with
  | Some n => Ok (<[n := v]> l)
  | None => Raise (IndexError SubscriptOutOfRange)
  end.

(** [arr[i][j] = v]: the row [arr[i]] is fetched and written in place, so the
    sequence [arr] holds the updated row at the same position. *)
Definition py_setitem2 {T} (arr : list (list T)) (i j : Z) (v : T) : result (list (list T)) :=
  row ← py_getitem arr i;
  row' ← py_setitem row j v;
  py_setitem arr i row'.

(** [arr[i][j]] *)
Definition py_getitem2 {T} (arr : list (list T)) (i j : Z) : result T :=
  row ← py_getitem arr i; py_getitem row j.

(** The entry at a position of a sequence of rows, if there is one. *)
Definition entry {T} (arr : list (list T)) (i j : nat) : option T := arr !! i ≫= (.!! j).

(** ** Name resolution

    A name used in a function body is looked up in the frame of the call, then
    in the globals of the module; a name bound in neither raises [NameError]
    (no builtin is called [fill_func], [fill_function], [args], [kwarg] or
    [kwargs]). *)
Inductive binding (F Args Kwargs : Type) : Type :=
  | BInt (z : Z)
  | BCallable (f : F)
  | BArgs (a : Args)
  | BKwargs (k : Kwargs)
  | BObject.
Arguments BInt {F Args Kwargs} z.
Arguments BCallable {F Args Kwargs} f.
Arguments BArgs {F Args Kwargs} a.
Arguments BKwargs {F Args Kwargs} k.
Arguments BObject {F Args Kwargs}.

Section Names.
Context {F Args Kwargs : Type}.
(** The names the module binds at top level: its two imports and its two
    classes. *)
Definition module_globals : gmap string (binding F Args Kwargs) :=
  <["np" := BObject]> (<["sys" := BObject]>
    (<["SymmetricArray" := BObject]> (<["SymmetricArray3d" := BObject]> ∅))).

Definition resolve (locals : gmap string (binding F Args Kwargs)) (name : string) : result (binding F Args Kwargs) :=
  match locals !! name with
  | Some b => Ok b
  | None =>
      match module_globals !! name with
      | Some b => Ok b
      | None => Raise (NameError name)
      end
  end.

Definition as_callable (b : binding F Args Kwargs) : result F :=
  match b with BCallable f => Ok f | _ => Raise TypeError end.
Definition as_args (b : binding F Args Kwargs) : result Args :=
  match b with BArgs a => Ok a | _ => Raise TypeError end.
Definition as_kwargs (b : binding F Args Kwargs) : result Kwargs :=
  match b with BKwargs k => Ok k | _ => Raise TypeError end.
End Names.

(** [np.zeros((n, m))]; numpy refuses a negative dimension. *)
Definition np_zeros2 {A} (zero : A) (n m : Z) : result (list (list A)) :=
  if bool_decide (n < 0 ∨ m < 0) then Raise ValueError
  else Ok (replicate (Z.to_nat n) (replicate (Z.to_nat m) zero)).

(** What a method hands back to its caller: a bare [return] gives [None]. *)
Inductive retval : Type :=
  | RNone
  | RSelf.

(** A name is bound to [None] or to an object of the heap. *)
Inductive pyval : Type :=
  | VNone
  | VRef (l : nat).

(** The checks every [__getitem__] and [__setitem__] of the module starts
    with: an integer subscript or a tuple of the wrong length is refused, then
    each key is compared with [sm1], in order. *)
Definition check_keys (arity : nat) (bound : Z) (ks : keys) : result (list Z) :=
  match ks with
  | KInt _ => Raise (IndexError (WrongNumberOfKeys ks))
  | KTuple l =>
      if bool_decide (length l ≠ arity) then Raise (IndexError (WrongNumberOfKeys ks))
      else
        _ ← for_in l (λ key _,
               if bool_decide (key > bound) then Raise (IndexError (KeyOutOfRange key))
               else Ok ()) ();
        Ok l
  end.

(** The coordinates a subscript supplies: [a[3]] supplies one. *)
Definition supplied (ks : keys) : list Z :=
  match ks with
  | KInt k => [k]
  | KTuple l => l
  end.
Definition key_count (ks : keys) : nat := length (supplied ks).

(** ** class SymmetricArray *)

Module SymmetricArray.
Section Class.
Context {A DType Args Kwargs : Type}.
(** [np.zeros] fills with this value. *)
Context (zero : A).
(** The [dtype] attribute of a numpy array. *)
Context (dtype_of : list A → DType).

(** The attributes [__init__] sets. *)
Record t : Type := mk {
  unique : Z;
  shape : Z;
  values : list (list A);
  sm1 : Z;
  dtype : DType
}.

Definition set_values (self : t) (vs : list (list A)) : t :=
  mk (unique self) (shape self) vs (sm1 self) (dtype self).

(** A fill function receives the requested length and the passed-through
    positional and keyword arguments. *)
Definition fill_fn : Type := Z → Args → Kwargs → list A.

Definition __init__ (N : Z) (fill_function : fill_fn) (args : Args) (kwargs : Kwargs)
  : result t :=
  let locals : gmap string (binding fill_fn Args Kwargs) :=
    <["self" := BObject]> (<["N" := BInt N]> (<["fill_function" := BCallable fill_function]>
      (<["args" := BArgs args]> (<["kwargs" := BKwargs kwargs]> ∅)))) in
  let unique := (N ^ 2 + N) / 2 in
  let shape := N in
  let sm1 := N - 1 in
  values ← for_in (xrange 0 N) (λ i values,
    f ← resolve locals "fill_function" ≫= as_callable;
    a ← resolve locals "args" ≫= as_args;
    k ← resolve locals "kwargs" ≫= as_kwargs;
    Ok (values ++ [f (N - i) a k])) [];
  first ← py_getitem values 0;
  Ok (mk unique shape values sm1 (dtype_of first)).

Definition getitem (self : t) (keya keyb : Z) : result A :=
  if bool_decide (keya > sm1 self) then Raise (IndexError (KeyOutOfRange keya))
  else if bool_decide (keyb > sm1 self) then Raise (IndexError (KeyOutOfRange keyb))
  else
    let mink := Z.min keya keyb in
    let maxk := Z.max keya keyb in
    py_getitem2 (values self) mink (maxk - mink).

Definition setitem (self : t) (keya keyb : Z) (value : A) : result t :=
  if bool_decide (keya > sm1 self) then Raise (IndexError (KeyOutOfRange keya))
  else if bool_decide (keyb > sm1 self) then Raise (IndexError (KeyOutOfRange keyb))
  else
    let mink := Z.min keya keyb in
    let maxk := Z.max keya keyb in
    vs ← py_setitem2 (values self) mink (maxk - mink) value;
    Ok (set_values self vs).

Definition __getitem__ (self : t) (ks : keys) : result A :=
  l ← check_keys 2 (sm1 self) ks;
  k0 ← py_getitem l 0;
  k1 ← py_getitem l 1;
  getitem self k0 k1.

Definition __setitem__ (self : t) (ks : keys) (value : A) : result t :=
  l ← check_keys 2 (sm1 self) ks;
  k0 ← py_getitem l 0;
  k1 ← py_getitem l 1;
  setitem self k0 k1 value.

(** [__iadd__] stores [value] in every slot above the diagonal and ends in a
    bare [return]. *)
Definition __iadd__ (self : t) (value : A) : result (t * retval) :=
  self' ← for_in (xrange 0 (shape self - 1)) (λ i self,
    for_in (xrange (i + 1) (shape self)) (λ j self,
      __setitem__ self (KTuple [i; j]) value) self) self;
  Ok (self', RNone).

(** The names of a scope and the instances they refer to. *)
Record store : Type := mk_store {
  names : gmap string pyval;
  heap : gmap nat t
}.

(** The statement [x += value] for a name [x] bound to an instance: the
    result of [__iadd__] is what [x] is bound to afterwards; the instance
    itself stays in the heap, as [__iadd__] left it. *)
Definition augmented_add (x : string) (value : A) (σ : store) : result store :=
  match names σ !! x with
  | None => Raise (NameError x)
  | Some VNone => Raise TypeError
  | Some (VRef l) =>
      match heap σ !! l with
      | None => Raise TypeError
      | Some self =>
          r ← __iadd__ self value;
          let bound := match r.2 with RNone => VNone | RSelf => VRef l end in
          Ok (mk_store (<[x := bound]> (names σ)) (<[l := r.1]> (heap σ)))
      end
  end.

Definition full (self : t) : result (list (list A)) :=
  outarr ← np_zeros2 zero (shape self) (shape self);
  for_in (xrange 0 (shape self - 1)) (λ i outarr,
    for_in (xrange (i + 1) (shape self)) (λ j outarr,
      value ← __getitem__ self (KTuple [i; j]);
      outarr ← py_setitem2 outarr i j value;
      py_setitem2 outarr j i value) outarr) outarr.

Definition __len__ (self : t) : Z := unique self.

Definition __repr__ (self : t) : string :=
  "Representation of an " +:+ pretty (shape self) +:+ "x" +:+ pretty (shape self)
    +:+ " array where array[i,j] = array[j,i] with " +:+ pretty (unique self)
    +:+ " unique values.".

Definition __str__ (self : t) : string :=
  "Representation of an " +:+ pretty (shape self) +:+ "x" +:+ pretty (shape self)
    +:+ " array where array[i,j] = array[j,i] with " +:+ pretty (unique self)
    +:+ " unique values.".

(** What a caller can do with a container once it is built. *)
Inductive operation : Type :=
  | OpGet (ks : keys)
  | OpSet (ks : keys) (v : A)
  | OpAddConstant (v : A)
  | OpToDense
  | OpDescribe
  | OpLength.

(** The container after an operation that returned. *)
Definition after (self : t) (o : operation) : result t :=
  match o with
  | OpGet ks => _ ← __getitem__ self ks; Ok self
  | OpSet ks v => __setitem__ self ks v
  | OpAddConstant v => r ← __iadd__ self v; Ok r.1
  | OpToDense => _ ← full self; Ok self
  | OpDescribe => let _ := __repr__ self in Ok self
  | OpLength => let _ := __len__ self in Ok self
  end.

(** The layout [__init__] builds with a fill function that respects the
    requested length: [N >= 1], [sm1 = N - 1], and [N] segments, segment [i]
    of length [N - i]. *)
Definition triangle (N : Z) : list nat := (λ i, Z.to_nat (N - i)) <$> xrange 0 N.
Definition wf (self : t) : Prop :=
  1 ≤ shape self ∧ sm1 self = shape self - 1 ∧
  length <$> values self = triangle (shape self).

#[global] Instance wf_dec (self : t) : Decision (wf self).
Proof. unfold wf. apply _. Defined.

(** The physical slot of a pair of coordinates in [[0, N)]. *)
Definition slot (self : t) (a b : Z) : option A :=
  entry (values self) (Z.to_nat (Z.min a b)) (Z.to_nat (Z.max a b - Z.min a b)).
End Class.
End SymmetricArray.

(** ** class SymmetricArray3d *)

Module SymmetricArray3d.
Section Class.
Context {A DType Args Kwargs : Type}.
Context (dtype_of : list (list A) → DType).

Record t : Type := mk {
  unique : Z;
  shape : Z;
  values : list (list (list A));
  sm1 : Z;
  dtype : DType
}.

Definition set_values (self : t) (vs : list (list (list A))) : t :=
  mk (unique self) (shape self) vs (sm1 self) (dtype self).

(** Here the requested shape is a pair. *)
Definition fill_fn : Type := Z * Z → Args → Kwargs → list (list A).

(** The parameters are [fill_function] and [**kwarg]; the loop body calls
    [fill_func] and passes [**kwargs]. *)
Definition __init__ (N : Z) (fill_function : fill_fn) (args : Args) (kwarg : Kwargs)
  : result t :=
  let locals : gmap string (binding fill_fn Args Kwargs) :=
    <["self" := BObject]> (<["N" := BInt N]> (<["fill_function" := BCallable fill_function]>
      (<["args" := BArgs args]> (<["kwarg" := BKwargs kwarg]> ∅)))) in
  let unique := ((N ^ 2 + N) / 2) * N in
  let shape := N in
  let sm1 := N - 1 in
  values ← for_in (xrange 0 N) (λ i values,
    f ← resolve locals "fill_func" ≫= as_callable;
    a ← resolve locals "args" ≫= as_args;
    k ← resolve locals "kwargs" ≫= as_kwargs;
    Ok (values ++ [f (N - i, N) a k])) [];
  first ← py_getitem values 0;
  Ok (mk unique shape values sm1 (dtype_of first)).

Definition getitem (self : t) (keya keyb keyc : Z) : result A :=
  if bool_decide (keya > sm1 self) then Raise (IndexError (KeyOutOfRange keya))
  else if bool_decide (keyb > sm1 self) then Raise (IndexError (KeyOutOfRange keyb))
  else if bool_decide (keyc > sm1 self) then Raise (IndexError (KeyOutOfRange keyc))
  else
    let mink := Z.min keya keyb in
    let maxk := Z.max keya keyb in
    block ← py_getitem (values self) mink;
    py_getitem2 block (maxk - mink) keyc.

Definition setitem (self : t) (keya keyb keyc : Z) (value : A) : result t :=
  if bool_decide (keya > sm1 self) then Raise (IndexError (KeyOutOfRange keya))
  else if bool_decide (keyb > sm1 self) then Raise (IndexError (KeyOutOfRange keyb))
  else if bool_decide (keyc > sm1 self) then Raise (IndexError (KeyOutOfRange keyc))
  else
    let mink := Z.min keya keyb in
    let maxk := Z.max keya keyb in
    block ← py_getitem (values self) mink;
    block' ← py_setitem2 block (maxk - mink) keyc value;
    vs ← py_setitem (values self) mink block';
    Ok (set_values self vs).

(** [sys.getsizeof], applied to a block. *)
Context (getsizeof : list (list A) → Z).

Definition total_size (self : t) : Z :=
  foldl (λ total array, total + getsizeof array) 0 (values self).

Definition __getitem__ (self : t) (ks : keys) : result A :=
  l ← check_keys 3 (sm1 self) ks;
  k0 ← py_getitem l 0;
  k1 ← py_getitem l 1;
  k2 ← py_getitem l 2;
  getitem self k0 k1 k2.

Definition __setitem__ (self : t) (ks : keys) (value : A) : result t :=
  l ← check_keys 3 (sm1 self) ks;
  k0 ← py_getitem l 0;
  k1 ← py_getitem l 1;
  k2 ← py_getitem l 2;
  setitem self k0 k1 k2 value.

Definition __len__ (self : t) : Z := unique self.

Definition __repr__ (self : t) : string :=
  "Representation of an " +:+ pretty (shape self) +:+ "x" +:+ pretty (shape self)
    +:+ "x" +:+ pretty (shape self)
    +:+ " array where array[i,j,k] = array[j,i,k] with " +:+ pretty (unique self)
    +:+ " unique values.".

Definition __str__ (self : t) : string :=
  "Representation of an " +:+ pretty (shape self) +:+ "x" +:+ pretty (shape self)
    +:+ "x" +:+ pretty (shape self)
    +:+ " array where array[i,j,k] = array[j,i,k] with " +:+ pretty (unique self)
    +:+ " unique values.".

(** The layout of the data model: [N >= 1], [sm1 = N - 1], and [N] blocks,
    block [i] of [N - i] rows of length [N]. *)
Definition prism (N : Z) : list (list nat) :=
  (λ i, replicate (Z.to_nat (N - i)) (Z.to_nat N)) <$> xrange 0 N.
Definition wf (self : t) : Prop :=
  1 ≤ shape self ∧ sm1 self = shape self - 1 ∧
  (λ block : list (list A), length <$> block) <$> values self = prism (shape self).

#[global] Instance wf3d_dec (self : t) : Decision (wf self).
Proof. unfold wf. apply _. Defined.
End Class.
End SymmetricArray3d.

(** ** The fill functions of the examples *)

(** [np.zeros(n)] and [np.full(n, c)] for a length; [np.zeros((n, m))] for a
    pair.  No configuration is interpreted by the classes, so it is [unit]
    here. *)
Definition zeros1 {A} (zero : A) : Z → unit → unit → list A :=
  λ n _ _, replicate (Z.to_nat n) zero.
Definition full1 {A} : Z → A → unit → list A :=
  λ n c _, replicate (Z.to_nat n) c.
Definition zeros2 {A} (zero : A) : Z * Z → unit → unit → list (list A) :=
  λ nm _ _, replicate (Z.to_nat nm.1) (replicate (Z.to_nat nm.2) zero).

(** ** The containers of the examples *)

(** The examples run on integers; the [dtype] and the configuration of the
    fill function play no part and are [unit]. *)
Definition no_dtype {T : Type} : T → unit := λ _, tt.

(** [SymmetricArray(3)], as built. *)
Definition zeros3 : @SymmetricArray.t Z unit :=
  SymmetricArray.mk 6 3 [[0; 0; 0]; [0; 0]; [0]] 2 tt.

(** [SymmetricArray(2, np.full, 1)], as built. *)
Definition ones2 : @SymmetricArray.t Z unit :=
  SymmetricArray.mk 3 2 [[1; 1]; [1]] 1 tt.

(** A 3-d container of size 2 with the layout of the data model. *)
Definition cube2 : @SymmetricArray3d.t Z unit :=
  SymmetricArray3d.mk 6 2 [[[0; 0]; [0; 0]]; [[0; 0]]] 1 tt.

(** The names and the heap after [a = SymmetricArray(3)]. *)
Definition one_name : @SymmetricArray.store Z unit :=
  SymmetricArray.mk_store {["a" := VRef 0]} {[0%nat := zeros3]}.

(** The 3-d session of the module documentation. *)
Definition session3d : result (Z * Z) :=
  b ← SymmetricArray3d.__init__ no_dtype 10 (zeros2 0) tt tt;
  b ← SymmetricArray3d.__setitem__ b (KTuple [1; 9; 2]) 5;
  x ← SymmetricArray3d.__getitem__ b (KTuple [9; 1; 2]);
  Ok (x, SymmetricArray3d.__len__ b).

(** The 2-d session of the module documentation. *)
Definition session2d : result (Z * Z * string) :=
  a ← SymmetricArray.__init__ no_dtype 10 (zeros1 0) tt tt;
  a ← SymmetricArray.__setitem__ a (KTuple [1; 9]) 1;
  x ← SymmetricArray.__getitem__ a (KTuple [9; 1]);
  Ok (x, SymmetricArray.__len__ a, SymmetricArray.__repr__ a).

(** [SymmetricArray(1, np.full, 4)], as built. *)
Definition single4 : @SymmetricArray.t Z unit :=
  SymmetricArray.mk 1 1 [[4]] 0 tt.

(** A size for blocks that counts 96 bytes and 8 more for each item. *)
Definition block_bytes (block : list (list Z)) : Z :=
  foldr (λ n total, 8 * Z.of_nat n + total) 96 (length <$> block).

(** ** Tables and the pairs a loop has visited *)

(** A table of [R] rows of length [C]; [np.zeros((N, N))] allocates a square
    one. *)
Definition rect {T} (R C : Z) (D : list (list T)) : Prop :=
  length <$> D = replicate (Z.to_nat R) (Z.to_nat C).
Definition square {T} (N : Z) (D : list (list T)) : Prop := rect N N D.

(** How a table read by [rd] relates to the pairs [P] a loop has visited: a
    visited pair reads [hit], any other pair reads [miss]. *)
Definition agrees {R : Type} (N : Z) (P : Z → Z → Prop) (rd hit miss : Z → Z → R) : Prop :=
  ∀ c d, 0 ≤ c < N → 0 ≤ d < N →
    (P c d → rd c d = hit c d) ∧ (¬ P c d → rd c d = miss c d).

(** The pairs visited once the outer loop has finished the rows [rows], and
    those visited while row [i] is at the columns [cols]. *)
Definition rows_done (rows : list Z) (c d : Z) : Prop :=
  Z.min c d ∈ rows ∧ c ≠ d.
Definition cols_done (rows : list Z) (i : Z) (cols : list Z) (c d : Z) : Prop :=
  rows_done rows c d ∨ (Z.min c d = i ∧ Z.max c d ∈ cols).

(** * Properties *)

(** ** Python subscripts *)

Section Subscripts.
Context {T : Type}.
Implicit Types (l : list T).

Lemma py_index_nonneg (len : nat) (i : Z) :
  0 ≤ i < Z.of_nat len → py_index len i = Some (Z.to_nat i).
Proof. intros Hi. unfold py_index. by rewrite bool_decide_eq_true_2. Qed.

Lemma py_index_neg (len : nat) (i : Z) :
  - Z.of_nat len ≤ i < 0 → py_index len i = Some (Z.to_nat (Z.of_nat len + i)).
Proof.
  intros Hi. unfold py_index.
  rewrite bool_decide_eq_false_2 by lia. by rewrite bool_decide_eq_true_2.
Qed.

Lemma py_index_outside (len : nat) (i : Z) :
  i < - Z.of_nat len ∨ Z.of_nat len ≤ i → py_index len i = None.
Proof.
  intros Hi. unfold py_index. by rewrite !bool_decide_eq_false_2 by lia.
Qed.

Lemma py_index_lt (len : nat) (i : Z) (n : nat) :
  py_index len i = Some n → (n < len)%nat.
Proof.
  unfold py_index. repeat case_bool_decide; intros [= <-]; lia.
Qed.

Lemma py_getitem_pos l (i : Z) (n : nat) x :
  py_index (length l) i = Some n → l !! n = Some x → py_getitem l i = Ok x.
Proof. intros Hn Hx. unfold py_getitem. rewrite Hn. simpl. by rewrite Hx. Qed.

Lemma py_getitem_nonneg l (i : Z) x :
  0 ≤ i → l !! Z.to_nat i = Some x → py_getitem l i = Ok x.
Proof.
  intros Hi Hx. apply py_getitem_pos with (Z.to_nat i); [|done].
  apply py_index_nonneg. apply lookup_lt_Some in Hx. lia.
Qed.

Lemma py_getitem_outside l (i : Z) :
  i < - Z.of_nat (length l) ∨ Z.of_nat (length l) ≤ i →
  py_getitem l i = Raise (IndexError SubscriptOutOfRange).
Proof. intros Hi. unfold py_getitem. by rewrite py_index_outside. Qed.

Lemma py_setitem_pos l (i : Z) (n : nat) v :
  py_index (length l) i = Some n → py_setitem l i v = Ok (<[n := v]> l).
Proof. intros Hn. unfold py_setitem. by rewrite Hn. Qed.

End Subscripts.

Section Rows.
Context {T : Type}.
Implicit Types (arr : list (list T)).

Lemma py_getitem2_pos arr (i j : Z) (n m : nat) row x :
  py_index (length arr) i = Some n → arr !! n = Some row →
  py_index (length row) j = Some m → row !! m = Some x →
  py_getitem2 arr i j = Ok x.
Proof.
  intros Hn Hrow Hm Hx. unfold py_getitem2.
  rewrite (py_getitem_pos _ _ _ _ Hn Hrow). simpl.
  by apply py_getitem_pos with m.
Qed.

Lemma py_getitem2_nonneg arr (i j : Z) x :
  0 ≤ i → 0 ≤ j → entry arr (Z.to_nat i) (Z.to_nat j) = Some x →
  py_getitem2 arr i j = Ok x.
Proof.
  unfold entry. intros Hi Hj He.
  destruct (arr !! Z.to_nat i) as [row|] eqn:Hrow; [simpl in He|done].
  unfold py_getitem2. rewrite (py_getitem_nonneg _ _ _ Hi Hrow). simpl.
  by apply py_getitem_nonneg.
Qed.

Lemma py_setitem2_pos arr (i j : Z) (n m : nat) row v :
  py_index (length arr) i = Some n → arr !! n = Some row →
  py_index (length row) j = Some m →
  py_setitem2 arr i j v = Ok (alter (<[m := v]>) n arr).
Proof.
  intros Hn Hrow Hm. unfold py_setitem2.
  rewrite (py_getitem_pos _ _ _ _ Hn Hrow). simpl.
  rewrite (py_setitem_pos _ _ _ _ Hm). simpl.
  rewrite (py_setitem_pos _ _ _ _ Hn). f_equal.
  apply list_eq. intros k. rewrite list_lookup_alter, list_lookup_insert.
  apply lookup_lt_Some in Hrow as Hlt.
  repeat case_decide; try done; try lia. subst. by rewrite Hrow.
Qed.

Lemma py_setitem2_nonneg arr (i j : Z) v :
  0 ≤ i → 0 ≤ j → is_Some (entry arr (Z.to_nat i) (Z.to_nat j)) →
  py_setitem2 arr i j v = Ok (alter (<[Z.to_nat j := v]>) (Z.to_nat i) arr).
Proof.
  unfold entry. intros Hi Hj [x He].
  destruct (arr !! Z.to_nat i) as [row|] eqn:Hrow; [simpl in He|done].
  apply py_setitem2_pos with row; [|done|].
  - apply py_index_nonneg. apply lookup_lt_Some in Hrow. lia.
  - apply py_index_nonneg. apply lookup_lt_Some in He. lia.
Qed.

Lemma entry_alter_insert arr (i j i' j' : nat) v :
  entry (alter (<[j := v]>) i arr) i' j' =
    if decide (i = i' ∧ j = j') then (λ _, v) <$> entry arr i j else entry arr i' j'.
Proof.
  unfold entry. rewrite list_lookup_alter.
  destruct (decide (i = i')) as [<-|Hne].
  - destruct (arr !! i) as [row|]; simpl; [|by case_decide].
    rewrite list_lookup_insert.
    destruct (row !! j) as [x|] eqn:Hx.
    + apply lookup_lt_Some in Hx as Hlt. simpl.
      destruct (decide (j = j')) as [<-|Hj].
      * rewrite !decide_True by done. done.
      * rewrite !decide_False by (intros [? ?]; done). done.
    + apply lookup_ge_None in Hx as Hge. simpl.
      rewrite (decide_False (P := j = j' ∧ _)) by lia.
      destruct (decide (j = j')) as [<-|Hj].
      * rewrite decide_True by done. done.
      * rewrite decide_False by (intros [? ?]; done). done.
  - rewrite decide_False by (intros [? ?]; done). done.
Qed.

Lemma lengths_alter_insert arr (i j : nat) v :
  length <$> alter (<[j := v]>) i arr = length <$> arr.
Proof.
  rewrite (list_fmap_alter _ _ id).
  - by apply list_alter_id.
  - apply Forall_forall. intros row _. by rewrite length_insert.
Qed.
End Rows.

(** ** Loops *)

(** A loop that keeps an invariant of the items already visited runs to its
    end and establishes the invariant for the whole sequence. *)
Lemma for_in_invariant {X S : Type} (I : list X → S → Prop)
    (body : X → S → result S) (l : list X) (s : S) :
  I [] s →
  (∀ visited x rest s, l = visited ++ x :: rest → I visited s →
     ∃ s', body x s = Ok s' ∧ I (visited ++ [x]) s') →
  ∃ s', for_in l body s = Ok s' ∧ I l s'.
Proof.
  revert I s. induction l as [|x l IH]; intros I s Hinit Hstep.
  - exists s. done.
  - destruct (Hstep [] x l s eq_refl Hinit) as (s1 & Hbody & HI1).
    destruct (IH (λ visited, I (x :: visited)) s1 HI1) as (s2 & Hrun & HI2).
    + intros visited y rest s' -> HI. apply (Hstep (x :: visited) y rest s'); done.
    + exists s2. simpl. rewrite Hbody. done.
Qed.

Lemma elem_of_xrange (start stop k : Z) : k ∈ xrange start stop ↔ start ≤ k < stop.
Proof. unfold xrange. rewrite elem_of_seqZ. lia. Qed.

Lemma xrange_split (start stop : Z) visited x rest :
  xrange start stop = visited ++ x :: rest →
  start ≤ x < stop ∧ ∀ k, k ∈ visited ++ [x] ↔ k ∈ visited ∨ k = x.
Proof.
  intros Heq. split.
  - apply elem_of_xrange. rewrite Heq, elem_of_app, elem_of_cons. auto.
  - intros k. by rewrite elem_of_app, list_elem_of_singleton.
Qed.

Lemma lookup_xrange (stop i : Z) :
  0 ≤ i < stop → xrange 0 stop !! Z.to_nat i = Some i.
Proof.
  intros Hi. unfold xrange. rewrite lookup_seqZ_lt by lia. f_equal. lia.
Qed.

Lemma check_keys_ok (arity : nat) (bound : Z) (l : list Z) :
  length l = arity → Forall (λ key, key ≤ bound) l →
  check_keys arity bound (KTuple l) = Ok l.
Proof.
  intros Hlen Hall. unfold check_keys.
  rewrite bool_decide_eq_false_2 by (intros Hne; done).
  assert (for_in l (λ key (_ : ()),
            if bool_decide (key > bound) then Raise (IndexError (KeyOutOfRange key))
            else Ok ()) () = Ok ()) as ->; [|done].
  clear Hlen. induction Hall as [|key l Hkey _ IH]; [done|].
  simpl. rewrite bool_decide_eq_false_2 by lia. simpl. done.
Qed.

(** ** SymmetricArray *)

Section Facts2D.
Import SymmetricArray.
Context {A DType : Type}.
Implicit Types (self : @t A DType) (v : A).

Lemma wf_segment self (i : Z) :
  wf self → 0 ≤ i < shape self →
  ∃ seg, values self !! Z.to_nat i = Some seg ∧ length seg = Z.to_nat (shape self - i).
Proof.
  intros (_ & _ & Hlen) Hi.
  assert ((length <$> values self) !! Z.to_nat i = Some (Z.to_nat (shape self - i))) as Hl.
  { rewrite Hlen. unfold triangle. rewrite list_lookup_fmap, lookup_xrange by done. done. }
  rewrite list_lookup_fmap in Hl.
  destruct (values self !! Z.to_nat i) as [seg|]; [|done].
  exists seg. split; [done|]. by injection Hl.
Qed.

Lemma wf_slot self (a b : Z) :
  wf self → 0 ≤ a < shape self → 0 ≤ b < shape self → is_Some (slot self a b).
Proof.
  intros Hwf Ha Hb. unfold slot, entry.
  destruct (wf_segment self (Z.min a b) Hwf) as (seg & -> & Hseg); [lia|].
  simpl. apply lookup_lt_is_Some. lia.
Qed.

Lemma slot_comm self (a b : Z) : slot self a b = slot self b a.
Proof. unfold slot. by rewrite (Z.min_comm a b), (Z.max_comm a b). Qed.

Lemma getitem_slot self (a b : Z) x :
  a ≤ sm1 self → b ≤ sm1 self → 0 ≤ a → 0 ≤ b →
  slot self a b = Some x → getitem self a b = Ok x.
Proof.
  intros Ha Hb Ha0 Hb0 Hx. unfold getitem.
  rewrite !bool_decide_eq_false_2 by lia.
  apply py_getitem2_nonneg; [lia|lia|done].
Qed.

Lemma setitem_slot self (a b : Z) v :
  a ≤ sm1 self → b ≤ sm1 self → 0 ≤ a → 0 ≤ b → is_Some (slot self a b) →
  setitem self a b v =
    Ok (set_values self (alter (<[Z.to_nat (Z.max a b - Z.min a b) := v]>)
                               (Z.to_nat (Z.min a b)) (values self))).
Proof.
  intros Ha Hb Ha0 Hb0 Hx. unfold setitem.
  rewrite !bool_decide_eq_false_2 by lia.
  rewrite py_setitem2_nonneg; [done|lia|lia|done].
Qed.

Lemma wf_set_values self (i j : nat) v :
  wf self → wf (set_values self (alter (<[j := v]>) i (values self))).
Proof.
  intros (HN & Hsm1 & Hlen). split; [done|]. split; [done|].
  simpl. by rewrite lengths_alter_insert.
Qed.

Lemma slot_set_values self (a b c d : Z) v :
  0 ≤ a → 0 ≤ b → 0 ≤ c → 0 ≤ d →
  slot (set_values self (alter (<[Z.to_nat (Z.max a b - Z.min a b) := v]>)
                               (Z.to_nat (Z.min a b)) (values self))) c d =
    if decide (Z.min c d = Z.min a b ∧ Z.max c d = Z.max a b)
    then (λ _, v) <$> slot self a b else slot self c d.
Proof.
  intros Ha Hb Hc Hd. unfold slot. simpl. rewrite entry_alter_insert.
  destruct (decide (Z.min c d = Z.min a b ∧ Z.max c d = Z.max a b)) as [[-> ->]|Hne].
  - by rewrite decide_True.
  - rewrite decide_False; [done|]. intros [H1 H2]. apply Hne. lia.
Qed.

Lemma getitem_keys self (a b : Z) :
  a ≤ sm1 self → b ≤ sm1 self →
  __getitem__ self (KTuple [a; b]) = getitem self a b.
Proof.
  intros Ha Hb. unfold __getitem__.
  rewrite check_keys_ok by (done || by repeat constructor). done.
Qed.

Lemma setitem_keys self (a b : Z) v :
  a ≤ sm1 self → b ≤ sm1 self →
  __setitem__ self (KTuple [a; b]) v = setitem self a b v.
Proof.
  intros Ha Hb. unfold __setitem__.
  rewrite check_keys_ok by (done || by repeat constructor). done.
Qed.

(** Writing one pair of coordinates and reading any pair afterwards. *)
Lemma setitem_getitem self (a b : Z) v :
  wf self → 0 ≤ a < shape self → 0 ≤ b < shape self →
  ∃ self', setitem self a b v = Ok self' ∧ wf self' ∧
    unique self' = unique self ∧ shape self' = shape self ∧
    ∀ c d, 0 ≤ c < shape self → 0 ≤ d < shape self →
      getitem self' c d =
        if decide (Z.min c d = Z.min a b ∧ Z.max c d = Z.max a b)
        then Ok v else getitem self c d.
Proof.
  intros Hwf Ha Hb. pose proof Hwf as (_ & Hsm1 & _).
  pose proof (wf_slot self a b Hwf Ha Hb) as Hs.
  eexists. split; [apply setitem_slot; (lia || done)|].
  split; [by apply wf_set_values|]. split; [done|]. split; [done|].
  intros c d Hc Hd.
  destruct (wf_slot self c d Hwf Hc Hd) as [y Hy].
  destruct Hs as [x Hx].
  pose proof (slot_set_values self a b c d v) as Hnew.
  rewrite Hx, Hy in Hnew. simpl in Hnew.
  rewrite (getitem_slot self c d y) by (lia || done).
  case_decide.
  - apply getitem_slot; simpl; (lia || (apply Hnew; lia)).
  - apply getitem_slot; simpl; (lia || (apply Hnew; lia)).
Qed.
End Facts2D.

Lemma for_in_append {X Y : Type} (g : X → Y) (l : list X) (acc : list Y) :
  for_in l (λ i vs, Ok (vs ++ [g i])) acc = Ok (acc ++ (g <$> l)).
Proof.
  revert acc. induction l as [|x l IH]; intros acc; simpl.
  - by rewrite app_nil_r.
  - rewrite IH. by rewrite <- app_assoc.
Qed.

Section Init2D.
Import SymmetricArray.
Context {A DType Args Kwargs : Type} (dtype_of : list A → DType).
Implicit Types (fill_function : @fill_fn A Args Kwargs).
Let bound : Type := binding (@fill_fn A Args Kwargs) Args Kwargs.

(** For [N >= 1] the constructor returns, with the segments the fill function
    produced for the lengths [N], [N - 1], ..., [1]. *)
Lemma init_values (N : Z) fill_function args kwargs :
  1 ≤ N →
  __init__ dtype_of N fill_function args kwargs =
    Ok (mk (N * (N + 1) / 2) N
          ((λ i, fill_function (N - i) args kwargs) <$> xrange 0 N)
          (N - 1) (dtype_of (fill_function N args kwargs))).
Proof.
  intros HN. unfold __init__.
  change (resolve _ "fill_function") with (Ok (BCallable fill_function : bound)).
  change (resolve _ "args") with (Ok (BArgs args : bound)).
  change (resolve _ "kwargs") with (Ok (BKwargs kwargs : bound)).
  simpl. rewrite (for_in_append (λ i, fill_function (N - i) args kwargs)). simpl.
  rewrite (py_getitem_nonneg _ 0 (fill_function N args kwargs)); [|lia|].
  - simpl. do 2 f_equal. f_equal. ring.
  - rewrite list_lookup_fmap, (lookup_xrange N 0) by lia. simpl.
    do 2 f_equal. lia.
Qed.

(** With no segment to take the [dtype] from, the constructor raises. *)
Lemma init_empty (N : Z) fill_function args kwargs :
  N ≤ 0 →
  __init__ dtype_of N fill_function args kwargs = Raise (IndexError SubscriptOutOfRange).
Proof.
  intros HN. unfold __init__, xrange. rewrite seqZ_nil by lia. done.
Qed.

Lemma init_wf (N : Z) fill_function args kwargs self :
  (∀ n, 0 ≤ n → length (fill_function n args kwargs) = Z.to_nat n) →
  __init__ dtype_of N fill_function args kwargs = Ok self →
  wf self ∧ shape self = N ∧ 1 ≤ N ∧ unique self = N * (N + 1) / 2.
Proof.
  intros Hfill Hinit. destruct (decide (1 ≤ N)) as [HN|HN].
  - rewrite init_values in Hinit by done. injection Hinit as <-.
    split; [|done]. split; [done|]. split; [done|]. simpl. unfold triangle.
    rewrite <- list_fmap_compose. apply list_fmap_ext.
    intros k i Hi. simpl. apply Hfill.
    apply list_elem_of_lookup_2, elem_of_xrange in Hi. lia.
  - rewrite init_empty in Hinit by lia. done.
Qed.
End Init2D.

(** ** The two loops over the pairs above the diagonal *)

Lemma agrees_step {R : Type} (N : Z) (P Q P' : Z → Z → Prop) `{∀ c d, Decision (Q c d)}
    (rd rd' hit miss : Z → Z → R) :
  agrees N P rd hit miss →
  (∀ c d, 0 ≤ c < N → 0 ≤ d < N →
     rd' c d = if decide (Q c d) then hit c d else rd c d) →
  (∀ c d, 0 ≤ c < N → 0 ≤ d < N → P' c d ↔ P c d ∨ Q c d) →
  agrees N P' rd' hit miss.
Proof.
  intros Hagr Hrd HP c d Hc Hd.
  destruct (Hagr c d Hc Hd) as [Hhit Hmiss].
  rewrite (Hrd c d Hc Hd), (HP c d Hc Hd).
  destruct (decide (Q c d)) as [HQ|HQ]; split; intros HPQ; auto.
  - tauto.
  - destruct HPQ as [HPcd|HQcd]; [auto|done].
Qed.

Lemma agrees_iff {R : Type} (N : Z) (P P' : Z → Z → Prop) (rd hit miss : Z → Z → R) :
  agrees N P rd hit miss →
  (∀ c d, 0 ≤ c < N → 0 ≤ d < N → P' c d ↔ P c d) →
  agrees N P' rd hit miss.
Proof.
  intros Hagr HP c d Hc Hd. rewrite (HP c d Hc Hd). by apply Hagr.
Qed.

Section Loops2D.
Import SymmetricArray.
Context {A DType : Type}.
Implicit Types (self : @t A DType) (v : A).

Lemma getitem_comm self (a b : Z) :
  a ≤ sm1 self → b ≤ sm1 self → getitem self a b = getitem self b a.
Proof.
  intros Ha Hb. unfold getitem. rewrite !bool_decide_eq_false_2 by lia.
  by rewrite (Z.min_comm a b), (Z.max_comm a b).
Qed.

(** The nested loops that [__iadd__] and [full] share, with an invariant
    [I] over the visited pairs. *)
Lemma upper_pairs_invariant {S : Type} (N : Z) (I : (Z → Z → Prop) → S → Prop)
    (stop : S → Z) (body : Z → Z → S → result S) (s : S) :
  (∀ P s, I P s → stop s = N) →
  I (rows_done []) s →
  (∀ P P' s, (∀ c d, 0 ≤ c < N → 0 ≤ d < N → P' c d ↔ P c d) → I P s → I P' s) →
  (∀ rows i cols j s, 0 ≤ i < j → j < N →
     I (cols_done rows i cols) s →
     ∃ s', body i j s = Ok s' ∧
       I (λ c d, cols_done rows i cols c d ∨ (Z.min c d = i ∧ Z.max c d = j)) s') →
  ∃ s', for_in (xrange 0 (N - 1)) (λ i s,
          for_in (xrange (i + 1) (stop s)) (λ j s, body i j s) s) s = Ok s' ∧
        I (λ c d, c ≠ d) s'.
Proof.
  intros Hstop Hinit Hiff Hstep.
  destruct (for_in_invariant (λ rows s, I (rows_done rows) s)
              (λ i s, for_in (xrange (i + 1) (stop s)) (λ j s, body i j s) s)
              (xrange 0 (N - 1)) s Hinit) as (s' & Hrun & Hs').
  - intros rows i rest s1 Hsplit HI.
    apply xrange_split in Hsplit as [Hi Hrows]. rewrite (Hstop _ _ HI).
    destruct (for_in_invariant (λ cols s, I (cols_done rows i cols) s)
                (λ j s, body i j s) (xrange (i + 1) N) s1) as (s2 & Hrun & Hs2).
    + apply (Hiff (rows_done rows)); [|done].
      intros c d _ _. unfold cols_done. rewrite elem_of_nil. tauto.
    + intros cols j rest' s2 Hsplit HI2.
      apply xrange_split in Hsplit as [Hj Hcols].
      destruct (Hstep rows i cols j s2) as (s3 & Hbody & HI3); [lia|lia|done|].
      exists s3. split; [done|]. revert HI3. apply Hiff.
      intros c d _ _. unfold cols_done. rewrite Hcols. tauto.
    + exists s2. split; [done|]. revert Hs2. apply Hiff.
      intros c d Hc Hd. unfold cols_done, rows_done.
      rewrite Hrows, elem_of_xrange. split.
      * intros [[Hmin|Hmin] Hne]; [by left|right; lia].
      * intros [[Hmin Hne]|[Hmin Hmax]]; [by auto|]. split; [by right|lia].
  - exists s'. split; [done|]. revert Hs'. apply Hiff.
    intros c d Hc Hd. unfold rows_done. rewrite elem_of_xrange. lia.
Qed.

(** [__iadd__] returns [None]; the container it leaves holds [value] in every
    slot off the diagonal and the old items on the diagonal. *)
Lemma iadd_spec self v :
  wf self →
  ∃ self', __iadd__ self v = Ok (self', RNone) ∧ wf self' ∧
    unique self' = unique self ∧ shape self' = shape self ∧
    ∀ c d, 0 ≤ c < shape self → 0 ≤ d < shape self →
      getitem self' c d = if decide (c = d) then getitem self c d else Ok v.
Proof.
  intros Hwf. unfold __iadd__.
  set (N := shape self).
  set (I := λ (P : Z → Z → Prop) (s : @t A DType),
         wf s ∧ unique s = unique self ∧ shape s = N ∧
         agrees N P (getitem s) (λ _ _, Ok v) (getitem self)).
  destruct (upper_pairs_invariant N I shape
              (λ i j s, __setitem__ s (KTuple [i; j]) v) self) as (s' & Hrun & Hs').
  - by intros P s (_ & _ & Hsh & _).
  - split; [done|]. split; [done|]. split; [done|].
    intros c d _ _. unfold rows_done. rewrite elem_of_nil. tauto.
  - intros P P' s HP (Hw & Hu & Hsh & Hagr). repeat (split; [done|]).
    by apply agrees_iff with P.
  - intros rows i cols j s Hij Hj (Hw & Hu & Hsh & Hagr).
    pose proof Hw as (_ & Hsm1 & _).
    destruct (setitem_getitem s i j v Hw) as (s1 & Hset & Hw1 & Hu1 & Hsh1 & Hget);
      [lia|lia|].
    exists s1. rewrite setitem_keys by lia. split; [done|].
    split; [done|]. split; [congruence|]. split; [congruence|].
    apply (agrees_step N (cols_done rows i cols)
             (λ c d, Z.min c d = i ∧ Z.max c d = j) _ (getitem s)); [done| |tauto].
    intros c d Hc Hd. rewrite Hget by lia.
    replace (Z.min i j) with i by lia. replace (Z.max i j) with j by lia.
    by destruct (decide (Z.min c d = i ∧ Z.max c d = j)).
  - destruct Hs' as (Hw & Hu & Hsh & Hagr).
    exists s'. rewrite Hrun. simpl. repeat (split; [done|]).
    intros c d Hc Hd. destruct (Hagr c d Hc Hd) as [Hhit Hmiss].
    destruct (decide (c = d)) as [Heq|Hne]; [apply Hmiss|apply Hhit]; tauto.
Qed.
End Loops2D.

Lemma rect_entry {T} (R C : Z) (D : list (list T)) (c d : Z) :
  rect R C D → 0 ≤ c < R → 0 ≤ d < C →
  is_Some (entry D (Z.to_nat c) (Z.to_nat d)).
Proof.
  intros Hsq Hc Hd. unfold entry.
  assert ((length <$> D) !! Z.to_nat c = Some (Z.to_nat C)) as Hl.
  { rewrite Hsq. apply lookup_replicate_2. lia. }
  rewrite list_lookup_fmap in Hl.
  destruct (D !! Z.to_nat c) as [row|]; [|done]. simpl.
  apply lookup_lt_is_Some. injection Hl as ->. lia.
Qed.

(** [D[i][j] = x] on such a table, and what the table then reads. *)
Lemma rect_write {T} (R C : Z) (D : list (list T)) (i j : Z) (x : T) :
  rect R C D → 0 ≤ i < R → 0 ≤ j < C →
  ∃ D', py_setitem2 D i j x = Ok D' ∧ rect R C D' ∧
    ∀ c d, 0 ≤ c < R → 0 ≤ d < C →
      py_getitem2 D' c d = if decide (c = i ∧ d = j) then Ok x else py_getitem2 D c d.
Proof.
  intros Hsq Hi Hj. pose proof (rect_entry R C D i j Hsq Hi Hj) as Hij.
  eexists. split; [apply py_setitem2_nonneg; (lia || done)|].
  split; [unfold rect; by rewrite lengths_alter_insert|].
  intros c d Hc Hd.
  destruct (rect_entry R C D c d Hsq Hc Hd) as [y Hy].
  destruct Hij as [z Hz].
  pose proof (entry_alter_insert D (Z.to_nat i) (Z.to_nat j) (Z.to_nat c) (Z.to_nat d) x)
    as Hnew.
  rewrite Hz, Hy in Hnew. simpl in Hnew.
  rewrite (py_getitem2_nonneg D c d y) by (lia || done).
  destruct (decide (c = i ∧ d = j)) as [[-> ->]|Hne].
  - rewrite decide_True in Hnew by done. apply py_getitem2_nonneg; (lia || done).
  - rewrite decide_False in Hnew by lia. apply py_getitem2_nonneg; (lia || done).
Qed.

Section Full2D.
Import SymmetricArray.
Context {A DType : Type} (zero : A).
Implicit Types (self : @t A DType) (v : A).

(** [full] returns an [N] x [N] table that reads zero on the diagonal and
    the stored item everywhere else. *)
Lemma full_spec self :
  wf self →
  ∃ D, full zero self = Ok D ∧ square (shape self) D ∧
    ∀ c d, 0 ≤ c < shape self → 0 ≤ d < shape self →
      py_getitem2 D c d = if decide (c = d) then Ok zero else getitem self c d.
Proof.
  intros Hwf. pose proof Hwf as (HN & Hsm1 & _). unfold full, np_zeros2.
  rewrite bool_decide_eq_false_2 by lia. simpl.
  set (N := shape self) in *.
  set (I := λ (P : Z → Z → Prop) (D : list (list A)),
         square N D ∧ agrees N P (py_getitem2 D) (getitem self) (λ _ _, Ok zero)).
  destruct (upper_pairs_invariant N I (λ _, N)
              (λ i j outarr,
                 value ← __getitem__ self (KTuple [i; j]);
                 outarr ← py_setitem2 outarr i j value;
                 py_setitem2 outarr j i value)
              (replicate (Z.to_nat N) (replicate (Z.to_nat N) zero)))
    as (D & Hrun & Hsq & Hagr).
  - done.
  - split.
    + unfold square, rect. by rewrite fmap_replicate, length_replicate.
    + intros c d Hc Hd. unfold rows_done. rewrite elem_of_nil.
      split; [tauto|]. intros _. apply py_getitem2_nonneg; [lia|lia|].
      unfold entry. rewrite lookup_replicate_2 by lia. simpl.
      apply lookup_replicate_2. lia.
  - intros P P' D HP [Hsq Hagr]. split; [done|]. by apply agrees_iff with P.
  - intros rows i cols j D Hij Hj [Hsq Hagr].
    destruct (wf_slot self i j Hwf) as [x Hx]; [lia|lia|].
    rewrite getitem_keys, (getitem_slot self i j x) by (lia || done). simpl.
    destruct (rect_write N N D i j x Hsq) as (D1 & -> & Hsq1 & Hget1); [lia|lia|].
    simpl.
    destruct (rect_write N N D1 j i x Hsq1) as (D2 & -> & Hsq2 & Hget2); [lia|lia|].
    exists D2. split; [done|]. split; [done|].
    apply (agrees_step N (cols_done rows i cols)
             (λ c d, Z.min c d = i ∧ Z.max c d = j) _ (py_getitem2 D)); [done| |tauto].
    intros c d Hc Hd. rewrite Hget2, Hget1 by done.
    assert (getitem self i j = Ok x) as Hgij by (apply getitem_slot; (lia || done)).
    destruct (decide (Z.min c d = i ∧ Z.max c d = j)) as [HQ|HQ].
    + destruct (decide (c = j ∧ d = i)) as [[-> ->]|Hne1].
      { rewrite getitem_comm by lia. done. }
      destruct (decide (c = i ∧ d = j)) as [[-> ->]|Hne2]; [done|lia].
    + rewrite !decide_False by lia. done.
  - exists D. split; [done|]. split; [done|].
    intros c d Hc Hd. destruct (Hagr c d Hc Hd) as [Hhit Hmiss].
    destruct (decide (c = d)) as [Heq|Hne]; [apply Hmiss|apply Hhit]; tauto.
Qed.
End Full2D.

Section Negative2D.
Import SymmetricArray.
Context {A DType : Type}.
Implicit Types (self : @t A DType) (v : A).

Lemma wf_length self : wf self → length (values self) = Z.to_nat (shape self).
Proof.
  intros (_ & _ & Hlen). apply (f_equal length) in Hlen.
  rewrite length_fmap in Hlen. rewrite Hlen. unfold triangle, xrange.
  rewrite length_fmap, length_seqZ. lia.
Qed.

(** Two keys in [[-N, -1]] pass the comparisons with [sm1]; the segment is
    counted from the end, and the slot is the one of [(N + a, N + b)]. *)
Lemma negative_slot self (a b : Z) :
  wf self → - shape self ≤ a < 0 → - shape self ≤ b < 0 →
  ∃ seg,
    py_index (length (values self)) (Z.min a b)
      = Some (Z.to_nat (shape self + Z.min a b)) ∧
    values self !! Z.to_nat (shape self + Z.min a b) = Some seg ∧
    py_index (length seg) (Z.max a b - Z.min a b)
      = Some (Z.to_nat (Z.max a b - Z.min a b)) ∧
    is_Some (seg !! Z.to_nat (Z.max a b - Z.min a b)).
Proof.
  intros Hwf Ha Hb. pose proof (wf_length self Hwf) as Hlen.
  destruct (wf_segment self (shape self + Z.min a b) Hwf) as (seg & Hseg & Hl); [lia|].
  exists seg. split; [|split; [done|split]].
  - rewrite py_index_neg by lia. do 2 f_equal. lia.
  - apply py_index_nonneg. lia.
  - apply lookup_lt_is_Some. lia.
Qed.

Lemma getitem_negative self (a b : Z) :
  wf self → - shape self ≤ a < 0 → - shape self ≤ b < 0 →
  ∃ x, getitem self a b = Ok x ∧ getitem self (shape self + a) (shape self + b) = Ok x.
Proof.
  intros Hwf Ha Hb. pose proof Hwf as (_ & Hsm1 & _).
  destruct (negative_slot self a b Hwf Ha Hb) as (seg & Hn & Hseg & Hm & [x Hx]).
  exists x. split.
  - unfold getitem. rewrite !bool_decide_eq_false_2 by lia.
    by apply py_getitem2_pos with (Z.to_nat (shape self + Z.min a b))
                                  (Z.to_nat (Z.max a b - Z.min a b)) seg.
  - apply getitem_slot; [lia..|]. unfold slot, entry.
    replace (Z.min (shape self + a) (shape self + b))
      with (shape self + Z.min a b) by lia.
    replace (Z.max (shape self + a) (shape self + b) - (shape self + Z.min a b))
      with (Z.max a b - Z.min a b) by lia.
    rewrite Hseg. done.
Qed.

Lemma setitem_negative self (a b : Z) v :
  wf self → - shape self ≤ a < 0 → - shape self ≤ b < 0 →
  ∃ self', setitem self a b v = Ok self' ∧
           setitem self (shape self + a) (shape self + b) v = Ok self'.
Proof.
  intros Hwf Ha Hb. pose proof Hwf as (_ & Hsm1 & _).
  destruct (negative_slot self a b Hwf Ha Hb) as (seg & Hn & Hseg & Hm & [x Hx]).
  eexists. split.
  - unfold setitem. rewrite !bool_decide_eq_false_2 by lia.
    rewrite (py_setitem2_pos _ _ _ _ _ seg v Hn Hseg Hm). done.
  - rewrite setitem_slot; [|lia..|].
    + replace (Z.min (shape self + a) (shape self + b))
        with (shape self + Z.min a b) by lia.
      replace (Z.max (shape self + a) (shape self + b) - (shape self + Z.min a b))
        with (Z.max a b - Z.min a b) by lia.
      done.
    + apply wf_slot; [done|lia|lia].
Qed.

(** One key counted from the end and one counted from the start pass the
    comparisons as well, but the offset then exceeds the segment and the
    subscript raises. *)
Lemma getitem_mixed_raises self (a b : Z) :
  wf self → - shape self ≤ a < 0 → 0 ≤ b < shape self →
  getitem self a b = Raise (IndexError SubscriptOutOfRange).
Proof.
  intros Hwf Ha Hb. pose proof Hwf as (_ & Hsm1 & _).
  pose proof (wf_length self Hwf) as Hlen.
  destruct (wf_segment self (shape self + a) Hwf) as (seg & Hseg & Hl); [lia|].
  unfold getitem, py_getitem2. rewrite !bool_decide_eq_false_2 by lia.
  replace (Z.min a b) with a by lia. replace (Z.max a b) with b by lia.
  rewrite (py_getitem_pos _ a (Z.to_nat (shape self + a)) seg); [|by rewrite py_index_neg, Hlen by lia; do 2 f_equal; lia|done].
  simpl. apply py_getitem_outside. lia.
Qed.
End Negative2D.

Section Claims2D.
Import SymmetricArray.
Context {A DType : Type}.
Implicit Types (self : @t A DType) (v : A).

(** C1. In a container with the layout of the constructor, with [i] and [j]
    in [[0, N)], [self[i, j] = v] succeeds and afterwards both [self[i, j]]
    and [self[j, i]] return [v]; the two orders name the same slot. *)
Theorem set_then_get_symmetric self (i j : Z) v :
  wf self → 0 ≤ i < shape self → 0 ≤ j < shape self →
  slot self i j = slot self j i ∧
  ∃ self', __setitem__ self (KTuple [i; j]) v = Ok self' ∧
    __getitem__ self' (KTuple [i; j]) = Ok v ∧
    __getitem__ self' (KTuple [j; i]) = Ok v.
Proof.
  intros Hwf Hi Hj. split; [apply slot_comm|]. pose proof Hwf as (_ & Hsm1 & _).
  destruct (setitem_getitem self i j v Hwf Hi Hj)
    as (self' & Hset & (_ & Hsm1' & _) & _ & Hshape & Hget).
  exists self'. rewrite setitem_keys, !getitem_keys by lia.
  split; [done|]. rewrite !Hget by done.
  rewrite !decide_True by lia. done.
Qed.

(** C6. For [a] and [b] in [[0, N)] the offset [max - min] lies in
    [[0, N - lo)], segment [lo] exists and has [N - lo] items, so the
    subscripts of [getitem] and [setitem] do not raise. *)
Theorem offset_within_segment self (a b : Z) :
  wf self → 0 ≤ a < shape self → 0 ≤ b < shape self →
  let lo := Z.min a b in
  let offset := Z.max a b - lo in
  0 ≤ offset < shape self - lo ∧
  (∃ seg, values self !! Z.to_nat lo = Some seg ∧
          Z.of_nat (length seg) = shape self - lo ∧
          is_Some (seg !! Z.to_nat offset)) ∧
  (∃ x, getitem self a b = Ok x) ∧
  (∀ v, ∃ self', setitem self a b v = Ok self').
Proof.
  intros Hwf Ha Hb lo offset. pose proof Hwf as (_ & Hsm1 & _).
  split; [lia|]. split; [|split].
  - destruct (wf_segment self lo Hwf) as (seg & Hseg & Hlen); [lia|].
    exists seg. split; [done|]. split; [lia|]. apply lookup_lt_is_Some. lia.
  - destruct (wf_slot self a b Hwf Ha Hb) as [x Hx].
    exists x. apply getitem_slot; (lia || done).
  - intros v. destruct (setitem_getitem self a b v Hwf Ha Hb) as (self' & Hset & _).
    by exists self'.
Qed.
(** C4. [full] returns an [N] x [N] table [D] with [D[i][j] = D[j][i] =
    self[i, j]] for [i ≠ j] and zero on the diagonal, whatever the container
    stores there. *)
Theorem full_copies_off_diagonal_only (zero : A) self :
  wf self →
  ∃ D, full zero self = Ok D ∧ square (shape self) D ∧
    (∀ i j, 0 ≤ i < shape self → 0 ≤ j < shape self → i ≠ j →
       ∃ x, __getitem__ self (KTuple [i; j]) = Ok x ∧
            py_getitem2 D i j = Ok x ∧ py_getitem2 D j i = Ok x) ∧
    (∀ i, 0 ≤ i < shape self → py_getitem2 D i i = Ok zero).
Proof.
  intros Hwf. pose proof Hwf as (_ & Hsm1 & _).
  destruct (full_spec zero self Hwf) as (D & Hfull & Hsq & Hread).
  exists D. split; [done|]. split; [done|]. split.
  - intros i j Hi Hj Hne.
    destruct (wf_slot self i j Hwf Hi Hj) as [x Hx].
    exists x. rewrite getitem_keys by lia.
    assert (getitem self i j = Ok x) as Hg by (apply getitem_slot; (lia || done)).
    split; [done|]. rewrite !Hread by done. rewrite !decide_False by lia.
    split; [done|]. by rewrite getitem_comm by lia.
  - intros i Hi. rewrite Hread by done. by rewrite decide_True.
Qed.

(** C9. Keys in [[-N, -1]] pass the validation of [__getitem__] and
    [__setitem__], which only compares a key with [N - 1]; the segment is then
    counted from the end, and the call reads or writes the slot of
    [(N + a, N + b)]: [self[-1, -1]] is [self[N - 1, N - 1]]. *)
Theorem negative_keys_wrap self (a b : Z) :
  wf self → - shape self ≤ a ≤ -1 → - shape self ≤ b ≤ -1 →
  check_keys 2 (sm1 self) (KTuple [a; b]) = Ok [a; b] ∧
  (∃ x, __getitem__ self (KTuple [a; b]) = Ok x ∧
        __getitem__ self (KTuple [shape self + a; shape self + b]) = Ok x) ∧
  (∀ v, ∃ self', __setitem__ self (KTuple [a; b]) v = Ok self' ∧
        __setitem__ self (KTuple [shape self + a; shape self + b]) v = Ok self').
Proof.
  intros Hwf Ha Hb. pose proof Hwf as (_ & Hsm1 & _).
  split; [|split].
  - apply check_keys_ok; [done|]. repeat constructor; lia.
  - destruct (getitem_negative self a b Hwf) as (x & Hx & Hx'); [lia|lia|].
    exists x. by rewrite !getitem_keys by lia.
  - intros v. destruct (setitem_negative self a b v Hwf) as (self' & Hs & Hs'); [lia|lia|].
    exists self'. by rewrite !setitem_keys by lia.
Qed.

(** C10. [__iadd__] returns [None], so [x += v] leaves the name [x] bound to
    [None]; the instance in the heap has been written: every slot off the
    diagonal holds [v]. *)
Theorem iadd_returns_none self v (x : string) (l : nat) (σ : store) :
  wf self → names σ !! x = Some (VRef l) → heap σ !! l = Some self →
  ∃ self', __iadd__ self v = Ok (self', RNone) ∧
    augmented_add x v σ =
      Ok (mk_store (<[x := VNone]> (names σ)) (<[l := self']> (heap σ))) ∧
    (∀ c d, 0 ≤ c < shape self → 0 ≤ d < shape self → c ≠ d →
       getitem self' c d = Ok v).
Proof.
  intros Hwf Hx Hl.
  destruct (iadd_spec self v Hwf) as (self' & Hrun & _ & _ & _ & Hget).
  exists self'. split; [done|]. split.
  - unfold augmented_add. rewrite Hx, Hl, Hrun. done.
  - intros c d Hc Hd Hne. rewrite Hget by done. by rewrite decide_False.
Qed.
End Claims2D.

(** ** SymmetricArray3d *)

Section Facts3D.
Import SymmetricArray3d.
Context {A DType : Type}.
Implicit Types (self : @t A DType) (v : A).

Lemma wf_block self (i : Z) :
  wf self → 0 ≤ i < shape self →
  ∃ block, values self !! Z.to_nat i = Some block ∧
           rect (shape self - i) (shape self) block.
Proof.
  intros (_ & _ & Hlen) Hi.
  assert (((λ block : list (list A), length <$> block) <$> values self) !! Z.to_nat i
          = Some (replicate (Z.to_nat (shape self - i)) (Z.to_nat (shape self)))) as Hl.
  { rewrite Hlen. unfold prism. rewrite list_lookup_fmap, lookup_xrange by done. done. }
  rewrite list_lookup_fmap in Hl.
  destruct (values self !! Z.to_nat i) as [block|]; [|done].
  exists block. split; [done|]. by injection Hl.
Qed.

Lemma getitem_block self (a b k : Z) block :
  a ≤ sm1 self → b ≤ sm1 self → k ≤ sm1 self → 0 ≤ a → 0 ≤ b →
  values self !! Z.to_nat (Z.min a b) = Some block →
  getitem self a b k = py_getitem2 block (Z.max a b - Z.min a b) k.
Proof.
  intros Ha Hb Hk Ha0 Hb0 Hblock. unfold getitem.
  rewrite !bool_decide_eq_false_2 by lia.
  rewrite (py_getitem_nonneg _ _ block) by (lia || done). done.
Qed.

Lemma getitem_comm3 self (a b k : Z) :
  a ≤ sm1 self → b ≤ sm1 self → getitem self a b k = getitem self b a k.
Proof.
  intros Ha Hb. unfold getitem. rewrite !bool_decide_eq_false_2 by lia.
  by rewrite (Z.min_comm a b), (Z.max_comm a b).
Qed.

(** Writing one triple and reading any triple afterwards. *)
Lemma setitem_getitem3 self (a b k : Z) v :
  wf self → 0 ≤ a < shape self → 0 ≤ b < shape self → 0 ≤ k < shape self →
  ∃ self', setitem self a b k v = Ok self' ∧ wf self' ∧
    unique self' = unique self ∧ shape self' = shape self ∧
    ∀ c d e, 0 ≤ c < shape self → 0 ≤ d < shape self → 0 ≤ e < shape self →
      getitem self' c d e =
        if decide (Z.min c d = Z.min a b ∧ Z.max c d = Z.max a b ∧ e = k)
        then Ok v else getitem self c d e.
Proof.
  intros Hwf Ha Hb Hk. pose proof Hwf as (HN & Hsm1 & Hlen).
  destruct (wf_block self (Z.min a b) Hwf) as (block & Hblock & Hrect); [lia|].
  destruct (rect_write _ _ block (Z.max a b - Z.min a b) k v Hrect)
    as (block' & Hwrite & Hrect' & Hread); [lia|lia|].
  exists (set_values self (<[Z.to_nat (Z.min a b) := block']> (values self))).
  assert (wf (set_values self (<[Z.to_nat (Z.min a b) := block']> (values self)))) as Hwf'.
  { split; [done|]. split; [done|]. simpl. rewrite list_fmap_insert, <- Hlen.
    apply list_insert_id. rewrite list_lookup_fmap, Hblock. simpl.
    f_equal. unfold rect in Hrect, Hrect'. congruence. }
  split; [|split; [done|split; [done|split; [done|]]]].
  - unfold setitem. rewrite !bool_decide_eq_false_2 by lia.
    rewrite (py_getitem_nonneg _ _ block) by (lia || done). simpl.
    rewrite Hwrite. simpl.
    rewrite (py_setitem_pos _ _ (Z.to_nat (Z.min a b))); [done|].
    apply py_index_nonneg. apply lookup_lt_Some in Hblock. lia.
  - intros c d e Hc Hd He.
    destruct (wf_block self (Z.min c d) Hwf) as (blk & Hblk & _); [lia|].
    rewrite (getitem_block self c d e blk) by (lia || done).
    destruct (decide (Z.min c d = Z.min a b)) as [Hmin|Hmin].
    + rewrite Hmin in Hblk. assert (blk = block) as -> by congruence.
      rewrite (getitem_block _ c d e block'); simpl; [|lia..|].
      * rewrite Hread by lia. rewrite Hmin.
        destruct (decide (Z.max c d - Z.min a b = Z.max a b - Z.min a b ∧ e = k)).
        -- rewrite decide_True by lia. done.
        -- rewrite decide_False by lia. done.
      * rewrite Hmin. apply list_lookup_insert_eq. by apply lookup_lt_Some in Hblock.
    + rewrite decide_False by lia.
      apply getitem_block; simpl; [lia..|].
      rewrite list_lookup_insert_ne by lia. done.
Qed.

Lemma getitem_keys3 self (a b k : Z) :
  a ≤ sm1 self → b ≤ sm1 self → k ≤ sm1 self →
  __getitem__ self (KTuple [a; b; k]) = getitem self a b k.
Proof.
  intros Ha Hb Hk. unfold __getitem__.
  rewrite check_keys_ok by (done || by repeat constructor). done.
Qed.

Lemma setitem_keys3 self (a b k : Z) v :
  a ≤ sm1 self → b ≤ sm1 self → k ≤ sm1 self →
  __setitem__ self (KTuple [a; b; k]) v = setitem self a b k v.
Proof.
  intros Ha Hb Hk. unfold __setitem__.
  rewrite check_keys_ok by (done || by repeat constructor). done.
Qed.

(** C8. In a container with the layout of the data model, with [i], [j]
    and [k] in [[0, N)], [self[i, j, k] = v] succeeds; afterwards
    [self[i, j, k]] and [self[j, i, k]] return [v], and [self[i, j, k']] for any
    other [k'] returns what it returned before. *)
Theorem set_then_get_symmetric_3d self (i j k : Z) v :
  wf self → 0 ≤ i < shape self → 0 ≤ j < shape self → 0 ≤ k < shape self →
  ∃ self', __setitem__ self (KTuple [i; j; k]) v = Ok self' ∧
    __getitem__ self' (KTuple [i; j; k]) = Ok v ∧
    __getitem__ self' (KTuple [j; i; k]) = Ok v ∧
    ∀ k', 0 ≤ k' < shape self → k' ≠ k →
      __getitem__ self' (KTuple [i; j; k']) = __getitem__ self (KTuple [i; j; k']) ∧
      is_ok (__getitem__ self (KTuple [i; j; k'])) = true.
Proof.
  intros Hwf Hi Hj Hk. pose proof Hwf as (_ & Hsm1 & _).
  destruct (setitem_getitem3 self i j k v Hwf Hi Hj Hk)
    as (self' & Hset & (_ & Hsm1' & _) & _ & Hshape & Hget).
  exists self'. rewrite setitem_keys3 by lia. split; [done|].
  rewrite !getitem_keys3 by lia. rewrite !Hget by done.
  rewrite !decide_True by lia. split; [done|]. split; [done|].
  intros k' Hk' Hne. rewrite !getitem_keys3 by lia. rewrite Hget by done.
  rewrite decide_False by lia. split; [done|].
  destruct (wf_block self (Z.min i j) Hwf) as (block & Hblock & Hrect); [lia|].
  rewrite (getitem_block self i j k' block) by (lia || done).
  destruct (rect_entry _ _ block (Z.max i j - Z.min i j) k' Hrect) as [x Hx]; [lia|lia|].
  rewrite (py_getitem2_nonneg block _ _ x) by (lia || done). done.
Qed.
End Facts3D.

Section Init3D.
Import SymmetricArray3d.
Context {A DType Args Kwargs : Type} (dtype_of : list (list A) → DType).
Implicit Types (fill_function : @fill_fn A Args Kwargs).

(** The first turn of the loop looks up [fill_func], which no scope binds. *)
Lemma init3d_name_error (N : Z) fill_function args kwarg :
  1 ≤ N →
  __init__ dtype_of N fill_function args kwarg = Raise (NameError "fill_func").
Proof.
  intros HN. unfold __init__, xrange. rewrite seqZ_cons by lia. done.
Qed.

(** Without a turn of the loop there is no block to take the [dtype] from. *)
Lemma init3d_empty (N : Z) fill_function args kwarg :
  N ≤ 0 →
  __init__ dtype_of N fill_function args kwarg = Raise (IndexError SubscriptOutOfRange).
Proof.
  intros HN. unfold __init__, xrange. rewrite seqZ_nil by lia. done.
Qed.

Lemma init3d_never_returns (N : Z) fill_function args kwarg :
  is_ok (__init__ dtype_of N fill_function args kwarg) = false.
Proof.
  destruct (decide (1 ≤ N)).
  - by rewrite init3d_name_error.
  - by rewrite init3d_empty by lia.
Qed.
End Init3D.

(** ** Validation of the subscript *)

Lemma check_keys_arity (arity : nat) (bound : Z) (ks : keys) :
  key_count ks ≠ arity →
  check_keys arity bound ks = Raise (IndexError (WrongNumberOfKeys ks)).
Proof.
  intros Hne. destruct ks as [k|l]; [done|]. simpl.
  by rewrite bool_decide_eq_true_2.
Qed.

Lemma check_keys_range (arity : nat) (bound : Z) (l : list Z) :
  length l = arity → (∃ key, key ∈ l ∧ key > bound) →
  ∃ key, key ∈ l ∧ key > bound ∧
    check_keys arity bound (KTuple l) = Raise (IndexError (KeyOutOfRange key)).
Proof.
  intros Hlen Hex. simpl. rewrite bool_decide_eq_false_2 by (intros Hne; done).
  clear Hlen. induction l as [|k l IH].
  - destruct Hex as (key & Hin & _). by apply elem_of_nil in Hin.
  - destruct (decide (k > bound)) as [Hk|Hk].
    + exists k. split; [by left|]. split; [done|].
      simpl. by rewrite bool_decide_eq_true_2.
    + destruct IH as (key & Hin & Hkey & Hrun).
      * destruct Hex as (key & Hin & Hkey). exists key. split; [|done].
        apply elem_of_cons in Hin as [->|Hin]; done.
      * exists key. split; [by right|]. split; [done|].
        simpl. rewrite bool_decide_eq_false_2 by done. simpl.
        destruct (for_in l _ ()); [done|]. simpl in Hrun. done.
Qed.

Section Validation.
Context {A DType : Type}.
Implicit Types (flat : @SymmetricArray.t A DType) (cube : @SymmetricArray3d.t A DType).

(** C5, as the code has it. A subscript with a number of coordinates other
    than 2 (3 for the 3-d class) makes [__getitem__] and [__setitem__] raise
    the IndexError for the wrong number of keys; a subscript with the right
    number of coordinates, one of them [>= N], makes them raise the IndexError
    for a key out of range, naming such a key. *)
Theorem subscript_errors flat cube (ks : keys) (v : A) :
  SymmetricArray.sm1 flat = SymmetricArray.shape flat - 1 →
  SymmetricArray3d.sm1 cube = SymmetricArray3d.shape cube - 1 →
  (key_count ks ≠ 2%nat →
     SymmetricArray.__getitem__ flat ks = Raise (IndexError (WrongNumberOfKeys ks)) ∧
     SymmetricArray.__setitem__ flat ks v = Raise (IndexError (WrongNumberOfKeys ks))) ∧
  (key_count ks ≠ 3%nat →
     SymmetricArray3d.__getitem__ cube ks = Raise (IndexError (WrongNumberOfKeys ks)) ∧
     SymmetricArray3d.__setitem__ cube ks v = Raise (IndexError (WrongNumberOfKeys ks))) ∧
  (key_count ks = 2%nat →
     (∃ key : Z, key ∈ supplied ks ∧ SymmetricArray.shape flat ≤ key) →
     ∃ key : Z, key ∈ supplied ks ∧ SymmetricArray.shape flat ≤ key ∧
       SymmetricArray.__getitem__ flat ks = Raise (IndexError (KeyOutOfRange key)) ∧
       SymmetricArray.__setitem__ flat ks v = Raise (IndexError (KeyOutOfRange key))) ∧
  (key_count ks = 3%nat →
     (∃ key : Z, key ∈ supplied ks ∧ SymmetricArray3d.shape cube ≤ key) →
     ∃ key : Z, key ∈ supplied ks ∧ SymmetricArray3d.shape cube ≤ key ∧
       SymmetricArray3d.__getitem__ cube ks = Raise (IndexError (KeyOutOfRange key)) ∧
       SymmetricArray3d.__setitem__ cube ks v = Raise (IndexError (KeyOutOfRange key))).
Proof.
  intros Hflat Hcube. split; [|split; [|split]].
  - intros Hn. unfold SymmetricArray.__getitem__, SymmetricArray.__setitem__.
    by rewrite check_keys_arity.
  - intros Hn. unfold SymmetricArray3d.__getitem__, SymmetricArray3d.__setitem__.
    by rewrite check_keys_arity.
  - intros Hn (key & Hin & Hkey). destruct ks as [k|l]; [done|].
    destruct (check_keys_range 2 (SymmetricArray.sm1 flat) l Hn) as (key' & Hin' & Hkey' & Hc).
    { exists key. split; [done|lia]. }
    exists key'. split; [done|]. split; [lia|].
    unfold SymmetricArray.__getitem__, SymmetricArray.__setitem__. by rewrite Hc.
  - intros Hn (key & Hin & Hkey). destruct ks as [k|l]; [done|].
    destruct (check_keys_range 3 (SymmetricArray3d.sm1 cube) l Hn) as (key' & Hin' & Hkey' & Hc).
    { exists key. split; [done|lia]. }
    exists key'. split; [done|]. split; [lia|].
    unfold SymmetricArray3d.__getitem__, SymmetricArray3d.__setitem__. by rewrite Hc.
Qed.
End Validation.

(** ** The length *)

Lemma for_in_preserves {X S : Type} (P : S → Prop) (body : X → S → result S)
    (l : list X) (s s' : S) :
  (∀ x s s', body x s = Ok s' → P s → P s') →
  for_in l body s = Ok s' → P s → P s'.
Proof.
  intros Hbody. revert s. induction l as [|x l IH]; intros s Hrun HP.
  - by injection Hrun as <-.
  - simpl in Hrun. destruct (body x s) as [s1|e] eqn:Hx; [|done].
    simpl in Hrun. apply (IH s1); [done|]. by apply (Hbody x s).
Qed.

Section Length2D.
Import SymmetricArray.
Context {A DType Args Kwargs : Type} (zero : A) (dtype_of : list A → DType).
Implicit Types (self : @t A DType) (v : A).

Lemma setitem_fields self ks v self' :
  __setitem__ self ks v = Ok self' →
  unique self' = unique self ∧ shape self' = shape self.
Proof.
  unfold __setitem__, setitem. intros Hset.
  destruct (check_keys 2 (sm1 self) ks) as [l|]; [simpl in Hset|done].
  destruct (py_getitem l 0) as [k0|]; [simpl in Hset|done].
  destruct (py_getitem l 1) as [k1|]; [simpl in Hset|done].
  repeat case_bool_decide; try done.
  destruct (py_setitem2 _ _ _ _) as [vs|]; [simpl in Hset|done].
  by injection Hset as <-.
Qed.

Lemma iadd_fields self v r :
  __iadd__ self v = Ok r → unique r.1 = unique self ∧ shape r.1 = shape self.
Proof.
  unfold __iadd__. intros Hrun.
  destruct (for_in _ _ self) as [s'|] eqn:Hloop; [simpl in Hrun|done].
  injection Hrun as <-. simpl.
  eapply (for_in_preserves (λ s, unique s = unique self ∧ shape s = shape self));
    [|exact Hloop|done].
  intros i s s1 Hinner HP.
  eapply (for_in_preserves (λ s, unique s = unique self ∧ shape s = shape self));
    [|exact Hinner|exact HP].
  intros j s2 s3 Hset [Hu Hs]. apply setitem_fields in Hset as [Hu' Hs'].
  split; congruence.
Qed.

(** The length of a freshly built container is [N (N + 1) / 2]. *)
Lemma len_after_init (N : Z) (fill_function : @fill_fn A Args Kwargs) args kwargs :
  1 ≤ N →
  ∃ self, __init__ dtype_of N fill_function args kwargs = Ok self ∧
          __len__ self = N * (N + 1) / 2.
Proof. intros HN. eexists. split; [by apply init_values|done]. Qed.

(** No operation changes it. *)
Lemma len_preserved self (o : operation) self' :
  after zero self o = Ok self' → __len__ self' = __len__ self.
Proof.
  unfold __len__. destruct o as [ks|ks v|v| | |]; simpl; intros Hafter.
  - destruct (__getitem__ self ks); [|done]. by injection Hafter as <-.
  - by apply setitem_fields in Hafter as [-> _].
  - destruct (__iadd__ self v) as [r|] eqn:Hr; [|done]. injection Hafter as <-.
    by apply iadd_fields in Hr as [-> _].
  - destruct (full zero self); [|done]. by injection Hafter as <-.
  - by injection Hafter as <-.
  - by injection Hafter as <-.
Qed.

Lemma len_preserved_all self (os : list operation) self' :
  for_in os (λ o s, after zero s o) self = Ok self' → __len__ self' = __len__ self.
Proof.
  intros Hrun.
  apply (for_in_preserves (λ s, __len__ s = __len__ self) _ _ _ _
           (λ o s s1 H1 Hs, eq_trans (len_preserved s o s1 H1) Hs) Hrun eq_refl).
Qed.
End Length2D.

(** * The examples of the module documentation, and the claims on them *)

Ltac layout := split; [simpl; lia | split; reflexivity].

Example zeros3_built :
  SymmetricArray.__init__ no_dtype 3 (zeros1 0) tt tt = Ok zeros3.
Proof. reflexivity. Qed.

Example ones2_built :
  SymmetricArray.__init__ no_dtype 2 full1 1 tt = Ok ones2.
Proof. reflexivity. Qed.

Example zeros3_wf : SymmetricArray.wf zeros3.
Proof. layout. Qed.

Example cube2_wf : SymmetricArray3d.wf cube2.
Proof. layout. Qed.

Example session2d_result :
  session2d =
    Ok (1, 55, "Representation of an 10x10 array where array[i,j] = array[j,i] with 55 unique values.").
Proof. vm_compute. reflexivity. Qed.

Example zeros3_iadd_5 :
  SymmetricArray.__iadd__ zeros3 5 =
    Ok (SymmetricArray.mk 6 3 [[0; 5; 5]; [0; 5]; [0]] 2 tt, RNone).
Proof. reflexivity. Qed.

Example sevens_full :
  (a ← SymmetricArray.__init__ no_dtype 3 full1 7 tt; SymmetricArray.full 0 a) =
    Ok [[0; 7; 7]; [7; 0; 7]; [7; 7; 0]].
Proof. reflexivity. Qed.

(** C2. [SymmetricArray3d(N)] never returns: for [N >= 1] the first turn of
    the loop raises [NameError] for [fill_func], whatever the fill function and
    its configuration; so the session of the documentation stops at its first
    line, and nothing is set, read or measured. *)
Theorem symmetric3d_constructor_raises :
  (∀ (A DType Args Kwargs : Type) (dtype_of : list (list A) → DType) (N : Z)
     (fill_function : @SymmetricArray3d.fill_fn A Args Kwargs) args kwarg,
     SymmetricArray3d.__init__ dtype_of N fill_function args kwarg =
       Raise (if bool_decide (1 ≤ N) then NameError "fill_func"
              else IndexError SubscriptOutOfRange)) ∧
  session3d = Raise (NameError "fill_func").
Proof.
  split.
  - intros A DType Args Kwargs dtype_of N fill_function args kwarg.
    case_bool_decide.
    + by apply init3d_name_error.
    + apply init3d_empty. lia.
  - unfold session3d. by rewrite init3d_name_error.
Qed.

(** C3. On a container filled with 1, [__iadd__] with 5 leaves 5 in the slot
    [(0, 1)], not [1 + 5]. *)
Theorem iadd_stores_the_value :
  SymmetricArray.__getitem__ ones2 (KTuple [0; 1]) = Ok 1 ∧
  ∃ a, SymmetricArray.__iadd__ ones2 5 = Ok (a, RNone) ∧
       SymmetricArray.__getitem__ a (KTuple [0; 1]) = Ok 5 ∧
       SymmetricArray.__getitem__ a (KTuple [0; 1]) ≠ Ok (1 + 5) ∧
       SymmetricArray.__getitem__ a (KTuple [0; 0]) = Ok 1.
Proof.
  split; [reflexivity|]. eexists. split; [reflexivity|].
  split; [reflexivity|]. split; [|reflexivity]. vm_compute. discriminate.
Qed.

(** C7. [len(SymmetricArray3d(N))] is never computed: the constructor
    raises before an object exists, for [N = 1] as for any other [N]. *)
Theorem symmetric3d_length_raises :
  (b ← SymmetricArray3d.__init__ no_dtype 1 (zeros2 0) tt tt;
   Ok (SymmetricArray3d.__len__ b)) = Raise (NameError "fill_func") ∧
  ∀ (N : Z) (fill_function : @SymmetricArray3d.fill_fn Z unit unit) args kwarg,
    is_ok (b ← SymmetricArray3d.__init__ no_dtype N fill_function args kwarg;
           Ok (SymmetricArray3d.__len__ b)) = false.
Proof.
  split.
  - by rewrite init3d_name_error.
  - intros N fill_function args kwarg.
    pose proof (init3d_never_returns no_dtype N fill_function args kwarg) as Hinit.
    by destruct (SymmetricArray3d.__init__ no_dtype N fill_function args kwarg).
Qed.

(** C5, as stated, fails: three coordinates, each [>= N], on the 2-d class
    raise the error for the number of keys, not the one for the range. *)
Lemma wrong_number_of_keys_comes_first :
  ¬ (∀ (flat : @SymmetricArray.t Z unit) (ks : keys),
       SymmetricArray.wf flat →
       (∃ key : Z, key ∈ supplied ks ∧ SymmetricArray.shape flat ≤ key) →
       ∃ key : Z,
         SymmetricArray.__getitem__ flat ks = Raise (IndexError (KeyOutOfRange key))).
Proof.
  intros Hclaim.
  destruct (Hclaim zeros3 (KTuple [5; 5; 5])) as [key Hkey].
  - layout.
  - exists 5. split; [by left|simpl; lia].
  - vm_compute in Hkey. discriminate.
Qed.

(** ** The theorems at concrete containers *)

Lemma set_then_get_symmetric_at_zeros3 :
  SymmetricArray.wf zeros3 ∧ 0 ≤ 0 < 3 ∧ 0 ≤ 2 < 3 ∧
  (SymmetricArray.slot zeros3 0 2 = SymmetricArray.slot zeros3 2 0 ∧
   ∃ self', SymmetricArray.__setitem__ zeros3 (KTuple [0; 2]) 7 = Ok self' ∧
     SymmetricArray.__getitem__ self' (KTuple [0; 2]) = Ok 7 ∧
     SymmetricArray.__getitem__ self' (KTuple [2; 0]) = Ok 7).
Proof.
  assert (SymmetricArray.wf zeros3) as Hwf by layout.
  assert (0 ≤ 0 < 3) as H0 by lia.
  assert (0 ≤ 2 < 3) as H2 by lia.
  exact (conj Hwf (conj H0 (conj H2 (set_then_get_symmetric zeros3 0 2 7 Hwf H0 H2)))).
Defined.

Lemma full_copies_off_diagonal_only_at_zeros3 :
  SymmetricArray.wf zeros3 ∧
  ∃ D, SymmetricArray.full 0 zeros3 = Ok D ∧ square 3 D ∧
    (∀ i j, 0 ≤ i < 3 → 0 ≤ j < 3 → i ≠ j →
       ∃ x, SymmetricArray.__getitem__ zeros3 (KTuple [i; j]) = Ok x ∧
            py_getitem2 D i j = Ok x ∧ py_getitem2 D j i = Ok x) ∧
    (∀ i, 0 ≤ i < 3 → py_getitem2 D i i = Ok 0).
Proof.
  assert (SymmetricArray.wf zeros3) as Hwf by layout.
  exact (conj Hwf (full_copies_off_diagonal_only 0 zeros3 Hwf)).
Defined.

Lemma subscript_errors_at_zeros3 :
  SymmetricArray.sm1 zeros3 = SymmetricArray.shape zeros3 - 1 ∧
  SymmetricArray3d.sm1 cube2 = SymmetricArray3d.shape cube2 - 1 ∧
  SymmetricArray.__getitem__ zeros3 (KTuple [0; 1; 2])
    = Raise (IndexError (WrongNumberOfKeys (KTuple [0; 1; 2]))) ∧
  ∃ key : Z, key ∈ [0; 1; 2] ∧ 2 ≤ key ∧
    SymmetricArray3d.__setitem__ cube2 (KTuple [0; 1; 2]) 7
      = Raise (IndexError (KeyOutOfRange key)).
Proof.
  assert (SymmetricArray.sm1 zeros3 = SymmetricArray.shape zeros3 - 1) as Hflat
    by reflexivity.
  assert (SymmetricArray3d.sm1 cube2 = SymmetricArray3d.shape cube2 - 1) as Hcube
    by reflexivity.
  destruct (subscript_errors zeros3 cube2 (KTuple [0; 1; 2]) 7 Hflat Hcube)
    as (Harity & _ & _ & Hrange).
  split; [done|]. split; [done|]. split.
  - apply Harity. vm_compute. discriminate.
  - destruct Hrange as (key & Hin & Hkey & _ & Hset).
    + reflexivity.
    + exists 2. split; [|simpl; lia]. right. right. left.
    + exists key. split; [done|]. split; [done|]. done.
Defined.

Lemma offset_within_segment_at_zeros3 :
  SymmetricArray.wf zeros3 ∧ 0 ≤ 2 < 3 ∧ 0 ≤ 1 < 3 ∧
  (0 ≤ Z.max 2 1 - Z.min 2 1 < 3 - Z.min 2 1 ∧
   (∃ seg, SymmetricArray.values zeros3 !! Z.to_nat (Z.min 2 1) = Some seg ∧
           Z.of_nat (length seg) = 3 - Z.min 2 1 ∧
           is_Some (seg !! Z.to_nat (Z.max 2 1 - Z.min 2 1))) ∧
   (∃ x, SymmetricArray.getitem zeros3 2 1 = Ok x) ∧
   (∀ v, ∃ self', SymmetricArray.setitem zeros3 2 1 v = Ok self')).
Proof.
  assert (SymmetricArray.wf zeros3) as Hwf by layout.
  assert (0 ≤ 2 < 3) as H2 by lia.
  assert (0 ≤ 1 < 3) as H1 by lia.
  exact (conj Hwf (conj H2 (conj H1 (offset_within_segment zeros3 2 1 Hwf H2 H1)))).
Defined.

Lemma set_then_get_symmetric_3d_at_cube2 :
  SymmetricArray3d.wf cube2 ∧ 0 ≤ 0 < 2 ∧ 0 ≤ 1 < 2 ∧
  ∃ self', SymmetricArray3d.__setitem__ cube2 (KTuple [0; 1; 1]) 7 = Ok self' ∧
    SymmetricArray3d.__getitem__ self' (KTuple [0; 1; 1]) = Ok 7 ∧
    SymmetricArray3d.__getitem__ self' (KTuple [1; 0; 1]) = Ok 7 ∧
    ∀ k', 0 ≤ k' < 2 → k' ≠ 1 →
      SymmetricArray3d.__getitem__ self' (KTuple [0; 1; k'])
        = SymmetricArray3d.__getitem__ cube2 (KTuple [0; 1; k']) ∧
      is_ok (SymmetricArray3d.__getitem__ cube2 (KTuple [0; 1; k'])) = true.
Proof.
  assert (SymmetricArray3d.wf cube2) as Hwf by layout.
  assert (0 ≤ 0 < 2) as H0 by lia.
  assert (0 ≤ 1 < 2) as H1 by lia.
  exact (conj Hwf (conj H0 (conj H1
           (set_then_get_symmetric_3d cube2 0 1 1 7 Hwf H0 H1 H1)))).
Defined.

Lemma negative_keys_wrap_at_zeros3 :
  SymmetricArray.wf zeros3 ∧ - 3 ≤ -1 ≤ -1 ∧
  check_keys 2 2 (KTuple [-1; -1]) = Ok [-1; -1] ∧
  (∃ x, SymmetricArray.__getitem__ zeros3 (KTuple [-1; -1]) = Ok x ∧
        SymmetricArray.__getitem__ zeros3 (KTuple [3 + -1; 3 + -1]) = Ok x) ∧
  (∀ v, ∃ self', SymmetricArray.__setitem__ zeros3 (KTuple [-1; -1]) v = Ok self' ∧
        SymmetricArray.__setitem__ zeros3 (KTuple [3 + -1; 3 + -1]) v = Ok self').
Proof.
  assert (SymmetricArray.wf zeros3) as Hwf by layout.
  assert (- 3 ≤ -1 ≤ -1) as H1 by lia.
  exact (conj Hwf (conj H1 (negative_keys_wrap zeros3 (-1) (-1) Hwf H1 H1))).
Defined.

Lemma iadd_returns_none_at_one_name :
  SymmetricArray.wf zeros3 ∧
  SymmetricArray.names one_name !! "a" = Some (VRef 0) ∧
  SymmetricArray.heap one_name !! 0%nat = Some zeros3 ∧
  ∃ self', SymmetricArray.__iadd__ zeros3 5 = Ok (self', RNone) ∧
    SymmetricArray.augmented_add "a" 5 one_name =
      Ok (SymmetricArray.mk_store (<["a" := VNone]> (SymmetricArray.names one_name))
                                  (<[0%nat := self']> (SymmetricArray.heap one_name))) ∧
    (∀ c d, 0 ≤ c < 3 → 0 ≤ d < 3 → c ≠ d → SymmetricArray.getitem self' c d = Ok 5).
Proof.
  assert (SymmetricArray.wf zeros3) as Hwf by layout.
  assert (SymmetricArray.names one_name !! "a" = Some (VRef 0)) as Ha by reflexivity.
  assert (SymmetricArray.heap one_name !! 0%nat = Some zeros3) as Hl by reflexivity.
  exact (conj Hwf (conj Ha (conj Hl
           (iadd_returns_none zeros3 5 "a" 0%nat one_name Hwf Ha Hl)))).
Defined.


(** * Further properties of the two classes *)

(** ** Writes and reads of a sequence of rows *)

Section RowsMore.
Context {T : Type}.
Implicit Types (arr : list (list T)).

(** [arr[i][j] = v] returns exactly when [arr[i][j]] does. *)
Lemma py_setitem2_ok_iff arr (i j : Z) (v : T) :
  is_ok (py_setitem2 arr i j v) = is_ok (py_getitem2 arr i j).
Proof.
  unfold py_setitem2, py_getitem2, py_getitem, py_setitem.
  destruct (py_index (length arr) i) as [n|] eqn:Hn; [simpl|done].
  destruct (arr !! n) as [row|]; [simpl|done].
  destruct (py_index (length row) j) as [m|] eqn:Hm; [simpl|done].
  apply py_index_lt in Hm. apply lookup_lt_is_Some in Hm as [x ->]. done.
Qed.

(** A write that returns has put [v] at one position of one row. *)
Lemma py_setitem2_inv arr (i j : Z) (v : T) arr' :
  py_setitem2 arr i j v = Ok arr' →
  ∃ n m row, py_index (length arr) i = Some n ∧ arr !! n = Some row ∧
    py_index (length row) j = Some m ∧ arr' = alter (<[m := v]>) n arr.
Proof.
  intros Hset. pose proof Hset as Hset'.
  unfold py_setitem2, py_getitem, py_setitem in Hset.
  destruct (py_index (length arr) i) as [n|] eqn:Hn; [simpl in Hset|done].
  destruct (arr !! n) as [row|] eqn:Hrow; [simpl in Hset|done].
  destruct (py_index (length row) j) as [m|] eqn:Hm; [simpl in Hset|done].
  exists n, m, row. repeat (split; [done|]).
  rewrite (py_setitem2_pos arr i j n m row v Hn Hrow Hm) in Hset'.
  by injection Hset' as <-.
Qed.

Lemma py_setitem2_lengths arr (i j : Z) (v : T) arr' :
  py_setitem2 arr i j v = Ok arr' → length <$> arr' = length <$> arr.
Proof.
  intros (n & m & row & _ & _ & _ & ->)%py_setitem2_inv.
  apply lengths_alter_insert.
Qed.

Lemma alter_insert_twice arr (n m : nat) (v w : T) :
  alter (<[m := w]>) n (alter (<[m := v]>) n arr) = alter (<[m := w]>) n arr.
Proof.
  rewrite list_alter_alter_eq. apply list_alter_ext; [|done].
  intros row _. simpl. apply list_insert_insert_eq.
Qed.

Lemma alter_insert_comm arr (n m n' m' : nat) (v w : T) :
  ¬ (n = n' ∧ m = m') →
  alter (<[m' := w]>) n' (alter (<[m := v]>) n arr)
    = alter (<[m := v]>) n (alter (<[m' := w]>) n' arr).
Proof.
  intros Hne. destruct (decide (n = n')) as [<-|Hn].
  - rewrite !list_alter_alter_eq. apply list_alter_ext; [|done].
    intros row _. simpl. apply list_insert_insert_ne. intros ->. by apply Hne.
  - by apply list_alter_alter_ne.
Qed.

Lemma alter_insert_same arr (n m : nat) (x : T) :
  entry arr n m = Some x → alter (<[m := x]>) n arr = arr.
Proof.
  unfold entry. intros He. apply list_eq. intros k.
  rewrite list_lookup_alter. case_decide as Hk; [subst k|done].
  destruct (arr !! n) as [row|]; [simpl in *|done].
  f_equal. by apply list_insert_id.
Qed.
End RowsMore.

(** ** SymmetricArray: how writes compose *)

Section Writes2D.
Import SymmetricArray.
Context {A DType : Type}.
Implicit Types (self : @t A DType) (v w x : A).

Lemma set_values_values self : set_values self (values self) = self.
Proof. by destruct self. Qed.

(** [self[a, b] = v] for coordinates in range, in closed form. *)
Lemma setitem_keys_slot self (a b : Z) v :
  wf self → 0 ≤ a < shape self → 0 ≤ b < shape self →
  __setitem__ self (KTuple [a; b]) v =
    Ok (set_values self (alter (<[Z.to_nat (Z.max a b - Z.min a b) := v]>)
                               (Z.to_nat (Z.min a b)) (values self))).
Proof.
  intros Hwf Ha Hb. pose proof Hwf as (_ & Hsm1 & _).
  rewrite setitem_keys by lia.
  apply setitem_slot; [lia..|]. by apply wf_slot.
Qed.

(** X1. A write changes no other slot: after [self[i, j] = v] every pair of
    coordinates other than [(i, j)] and [(j, i)] reads what it read before. *)
Theorem setitem_leaves_other_pairs self (i j : Z) v :
  wf self → 0 ≤ i < shape self → 0 ≤ j < shape self →
  ∃ self', __setitem__ self (KTuple [i; j]) v = Ok self' ∧
    ∀ c d, 0 ≤ c < shape self → 0 ≤ d < shape self →
      ¬ (c = i ∧ d = j) → ¬ (c = j ∧ d = i) →
      __getitem__ self' (KTuple [c; d]) = __getitem__ self (KTuple [c; d]).
Proof.
  intros Hwf Hi Hj. pose proof Hwf as (_ & Hsm1 & _).
  destruct (setitem_getitem self i j v Hwf Hi Hj)
    as (self' & Hset & (_ & Hsm1' & _) & _ & Hshape & Hget).
  exists self'. rewrite setitem_keys by lia. split; [done|].
  intros c d Hc Hd Hne1 Hne2. rewrite !getitem_keys by lia.
  rewrite Hget by done. by rewrite decide_False by lia.
Qed.

(** X2. The last write wins, in either order of the coordinates:
    [self[i, j] = v; self[j, i] = w] leaves the container that
    [self[i, j] = w] alone leaves. *)
Theorem setitem_overwrites self (i j : Z) v w :
  wf self → 0 ≤ i < shape self → 0 ≤ j < shape self →
  (s ← __setitem__ self (KTuple [i; j]) v; __setitem__ s (KTuple [j; i]) w)
    = __setitem__ self (KTuple [i; j]) w ∧
  is_ok (__setitem__ self (KTuple [i; j]) w) = true.
Proof.
  intros Hwf Hi Hj. rewrite !setitem_keys_slot by done. simpl. split; [|done].
  rewrite setitem_keys_slot; [|by apply wf_set_values|done..].
  simpl. rewrite (Z.min_comm j i), (Z.max_comm j i).
  unfold set_values. simpl. by rewrite alter_insert_twice.
Qed.

(** X3. Writes to two different slots commute. *)
Theorem setitem_commutes self (i j c d : Z) v w :
  wf self → 0 ≤ i < shape self → 0 ≤ j < shape self →
  0 ≤ c < shape self → 0 ≤ d < shape self →
  ¬ (c = i ∧ d = j) → ¬ (c = j ∧ d = i) →
  (s ← __setitem__ self (KTuple [i; j]) v; __setitem__ s (KTuple [c; d]) w)
    = (s ← __setitem__ self (KTuple [c; d]) w; __setitem__ s (KTuple [i; j]) v) ∧
  is_ok (s ← __setitem__ self (KTuple [i; j]) v; __setitem__ s (KTuple [c; d]) w) = true.
Proof.
  intros Hwf Hi Hj Hc Hd Hne1 Hne2. rewrite !setitem_keys_slot by done. simpl.
  rewrite (setitem_keys_slot (set_values self _) c d w);
    [|by apply wf_set_values|done..].
  rewrite (setitem_keys_slot (set_values self _) i j v);
    [|by apply wf_set_values|done..].
  split; [|done]. unfold set_values. simpl. do 2 f_equal.
  apply alter_insert_comm. lia.
Qed.

(** X4. Writing back the item just read leaves the container as it was. *)
Theorem setitem_of_getitem self (i j : Z) x :
  wf self → 0 ≤ i < shape self → 0 ≤ j < shape self →
  __getitem__ self (KTuple [i; j]) = Ok x →
  __setitem__ self (KTuple [i; j]) x = Ok self.
Proof.
  intros Hwf Hi Hj Hget. pose proof Hwf as (_ & Hsm1 & _).
  rewrite setitem_keys_slot by done. f_equal.
  destruct (wf_slot self i j Hwf Hi Hj) as [y Hy].
  rewrite getitem_keys, (getitem_slot self i j y) in Hget by (lia || done).
  injection Hget as ->. unfold slot in Hy.
  rewrite (alter_insert_same _ _ _ x Hy). apply set_values_values.
Qed.
End Writes2D.

(** ** SymmetricArray: which subscripts return *)

(** The error names the first key above the bound, in the order of the
    tuple. *)
Lemma check_keys_first (arity : nat) (bound : Z) (pre post : list Z) (key : Z) :
  length (pre ++ key :: post) = arity →
  Forall (λ k, k ≤ bound) pre → key > bound →
  check_keys arity bound (KTuple (pre ++ key :: post))
    = Raise (IndexError (KeyOutOfRange key)).
Proof.
  intros Hlen Hpre Hkey. simpl.
  rewrite bool_decide_eq_false_2 by (intros Hne; done). clear Hlen.
  induction Hpre as [|k pre Hk _ IH]; simpl.
  - by rewrite bool_decide_eq_true_2.
  - rewrite bool_decide_eq_false_2 by lia. simpl.
    destruct (for_in (pre ++ key :: post) _ ()); [done|]. simpl in IH. done.
Qed.

Section Reads2D.
Import SymmetricArray.
Context {A DType : Type}.
Implicit Types (self : @t A DType) (v w x : A).

Lemma getitem_below_raises self (a b : Z) :
  wf self → a ≤ sm1 self → b ≤ sm1 self → Z.min a b < - shape self →
  getitem self a b = Raise (IndexError SubscriptOutOfRange).
Proof.
  intros Hwf Ha Hb Hmin. pose proof (wf_length self Hwf) as Hlen.
  pose proof Hwf as (HN & _). unfold getitem, py_getitem2.
  rewrite !bool_decide_eq_false_2 by lia.
  rewrite py_getitem_outside by lia. done.
Qed.

Lemma setitem_ok_iff self (a b : Z) v :
  is_ok (setitem self a b v) = is_ok (getitem self a b).
Proof.
  unfold setitem, getitem. repeat case_bool_decide; try done.
  rewrite <- (py_setitem2_ok_iff _ _ _ v).
  by destruct (py_setitem2 _ _ _ _).
Qed.

(** X5. On any object of the class, a write returns exactly when
    the read of the same subscript does. *)
Theorem setitem_returns_iff_getitem_returns self (ks : keys) v :
  is_ok (__setitem__ self ks v) = is_ok (__getitem__ self ks).
Proof.
  unfold __setitem__, __getitem__.
  destruct (check_keys 2 (sm1 self) ks) as [l|]; [simpl|done].
  destruct (py_getitem l 0) as [k0|]; [simpl|done].
  destruct (py_getitem l 1) as [k1|]; [simpl|done].
  apply setitem_ok_iff.
Qed.

(** X6. Which pairs of keys a container of size [N] accepts: both in
    [[0, N)], or both in [[-N, -1]].  Any other pair raises; when neither key
    exceeds [N - 1] the error is the one of the list or array subscript. *)
Theorem getitem_returns_iff self (a b : Z) :
  wf self →
  (is_ok (__getitem__ self (KTuple [a; b])) = true ↔
     (0 ≤ a < shape self ∧ 0 ≤ b < shape self) ∨
     (- shape self ≤ a < 0 ∧ - shape self ≤ b < 0)) ∧
  (a ≤ shape self - 1 → b ≤ shape self - 1 →
   is_ok (__getitem__ self (KTuple [a; b])) = false →
   __getitem__ self (KTuple [a; b]) = Raise (IndexError SubscriptOutOfRange)).
Proof.
  intros Hwf. pose proof Hwf as (HN & Hsm1 & _).
  destruct (decide (a ≤ sm1 self ∧ b ≤ sm1 self)) as [[Ha Hb]|Hbig].
  - rewrite getitem_keys by done.
    destruct (decide ((0 ≤ a ∧ 0 ≤ b) ∨ (- shape self ≤ a < 0 ∧ - shape self ≤ b < 0)))
      as [[[Ha0 Hb0]|[Ha0 Hb0]]|Hout].
    + destruct (wf_slot self a b Hwf) as [x Hx]; [lia|lia|].
      rewrite (getitem_slot self a b x) by (lia || done). simpl.
      split; [|done]. split; [intros _; left; lia|done].
    + destruct (getitem_negative self a b Hwf Ha0 Hb0) as (x & -> & _). simpl.
      split; [|done]. split; [intros _; by right|done].
    + assert (getitem self a b = Raise (IndexError SubscriptOutOfRange)) as ->.
      { destruct (decide (Z.min a b < - shape self)) as [Hlow|Hlow].
        - by apply getitem_below_raises.
        - destruct (decide (a < 0)) as [Hneg|Hneg].
          + apply getitem_mixed_raises; [done|lia|lia].
          + rewrite getitem_comm by done.
            apply getitem_mixed_raises; [done|lia|lia]. }
      simpl. split; [|done]. split; [done|]. intros [?|?]; exfalso; apply Hout; lia.
  - split.
    + destruct (check_keys_range 2 (sm1 self) [a; b] eq_refl) as (key & _ & _ & Hc).
      { destruct (decide (a ≤ sm1 self)).
        - exists b. split; [right; left|lia].
        - exists a. split; [left|lia]. }
      unfold __getitem__. rewrite Hc. simpl. split; [done|]. lia.
    + lia.
Qed.

(** X7. With the right number of keys, the out-of-range error names the first
    key above [N - 1], whatever follows it. *)
Theorem first_key_out_of_range_is_reported self (pre post : list Z) (key : Z) v :
  sm1 self = shape self - 1 →
  length (pre ++ key :: post) = 2%nat →
  Forall (λ k, k < shape self) pre → shape self ≤ key →
  __getitem__ self (KTuple (pre ++ key :: post)) = Raise (IndexError (KeyOutOfRange key)) ∧
  __setitem__ self (KTuple (pre ++ key :: post)) v = Raise (IndexError (KeyOutOfRange key)).
Proof.
  intros Hsm1 Hlen Hpre Hkey. unfold __getitem__, __setitem__.
  rewrite (check_keys_first 2 (sm1 self) pre post key Hlen); [done| |lia].
  eapply Forall_impl; [exact Hpre|]. intros k Hk. simpl in Hk. lia.
Qed.

(** X8. Access is symmetric on any object of the class, whatever its layout:
    with both keys at most [sm1], the two orders of a pair read the same item
    or raise the same error, and a write in either order leaves the same
    container. *)
Theorem access_is_symmetric self (a b : Z) v :
  a ≤ sm1 self → b ≤ sm1 self →
  __getitem__ self (KTuple [a; b]) = __getitem__ self (KTuple [b; a]) ∧
  __setitem__ self (KTuple [a; b]) v = __setitem__ self (KTuple [b; a]) v.
Proof.
  intros Ha Hb. rewrite !getitem_keys, !setitem_keys by done.
  split; [by apply getitem_comm|].
  unfold setitem. rewrite !bool_decide_eq_false_2 by lia.
  by rewrite (Z.min_comm a b), (Z.max_comm a b).
Qed.
End Reads2D.

(** ** SymmetricArray: the constructor, the loops and the invariant *)

Ltac kept := split; [assumption | repeat split; (assumption || congruence)].

Section Lifetime2D.
Import SymmetricArray.
Context {A DType Args Kwargs : Type} (zero : A) (dtype_of : list A → DType).
Implicit Types (self : @t A DType) (v w x : A)
  (fill_function : @fill_fn A Args Kwargs).

(** Two containers with the layout and the same attributes that read the same
    are the same. *)
Lemma wf_ext self (other : @t A DType) :
  wf self → wf other →
  unique self = unique other → shape self = shape other → dtype self = dtype other →
  (∀ c d, 0 ≤ c < shape self → 0 ≤ d < shape self →
     getitem self c d = getitem other c d) →
  self = other.
Proof.
  intros Hwf Hwf' Hu Hs Hd Hread.
  pose proof Hwf as (_ & Hsm1 & _). pose proof Hwf' as (_ & Hsm1' & _).
  pose proof (wf_length self Hwf) as Hlen. pose proof (wf_length other Hwf') as Hlen'.
  assert (values self = values other) as Hv.
  { apply list_eq. intros n.
    destruct (decide (Z.of_nat n < shape self)) as [Hn|Hn].
    - destruct (wf_segment self (Z.of_nat n) Hwf) as (seg & Hseg & Hl); [lia|].
      destruct (wf_segment other (Z.of_nat n) Hwf') as (seg' & Hseg' & Hl'); [lia|].
      rewrite Nat2Z.id in Hseg, Hseg'. rewrite Hseg, Hseg'. f_equal.
      apply list_eq. intros m.
      destruct (decide (Z.of_nat m < shape self - Z.of_nat n)) as [Hm|Hm].
      + assert (is_Some (seg !! m)) as [x Hx] by (apply lookup_lt_is_Some; lia).
        assert (is_Some (seg' !! m)) as [x' Hx'] by (apply lookup_lt_is_Some; lia).
        assert (Z.min (Z.of_nat n) (Z.of_nat n + Z.of_nat m) = Z.of_nat n) as Hmin by lia.
        assert (Z.max (Z.of_nat n) (Z.of_nat n + Z.of_nat m)
                - Z.min (Z.of_nat n) (Z.of_nat n + Z.of_nat m) = Z.of_nat m) as Hoff by lia.
        assert (getitem self (Z.of_nat n) (Z.of_nat n + Z.of_nat m) = Ok x) as Hg.
        { apply getitem_slot; [lia..|]. unfold slot, entry.
          by rewrite Hoff, Hmin, !Nat2Z.id, Hseg. }
        assert (getitem other (Z.of_nat n) (Z.of_nat n + Z.of_nat m) = Ok x') as Hg'.
        { apply getitem_slot; [lia..|]. unfold slot, entry.
          by rewrite Hoff, Hmin, !Nat2Z.id, Hseg'. }
        rewrite Hread in Hg by lia. rewrite Hx, Hx'. congruence.
      + rewrite !(lookup_ge_None_2 _ m) by lia. done.
    - rewrite !(lookup_ge_None_2 _ n) by lia. done. }
  destruct self, other. simpl in *. congruence.
Qed.

(** A write that returns keeps the layout and every attribute. *)
Lemma setitem_keeps self (ks : keys) v self' :
  __setitem__ self ks v = Ok self' → wf self →
  wf self' ∧ unique self' = unique self ∧ shape self' = shape self ∧
  sm1 self' = sm1 self ∧ dtype self' = dtype self.
Proof.
  unfold __setitem__, setitem. intros Hset (HN & Hsm1 & Hlen).
  destruct (check_keys 2 (sm1 self) ks) as [l|]; [simpl in Hset|done].
  destruct (py_getitem l 0) as [k0|]; [simpl in Hset|done].
  destruct (py_getitem l 1) as [k1|]; [simpl in Hset|done].
  repeat case_bool_decide; try done.
  destruct (py_setitem2 _ _ _ _) as [vs|] eqn:Hvs; [simpl in Hset|done].
  injection Hset as <-. apply py_setitem2_lengths in Hvs.
  repeat split; simpl; (done || congruence).
Qed.

Lemma iadd_keeps self v r :
  __iadd__ self v = Ok r → wf self →
  wf r.1 ∧ unique r.1 = unique self ∧ shape r.1 = shape self ∧
  sm1 r.1 = sm1 self ∧ dtype r.1 = dtype self.
Proof.
  unfold __iadd__. intros Hrun Hwf.
  destruct (for_in _ _ self) as [s'|] eqn:Hloop; [simpl in Hrun|done].
  injection Hrun as <-. simpl.
  set (P := λ s : @t A DType, wf s ∧ unique s = unique self ∧ shape s = shape self ∧
                   sm1 s = sm1 self ∧ dtype s = dtype self).
  eapply (for_in_preserves P); [|exact Hloop|unfold P; kept].
  intros i s s1 Hinner HP.
  eapply (for_in_preserves P); [|exact Hinner|exact HP].
  intros j s2 s3 Hset (Hw & Hu & Hs & Hm & Hd).
  apply setitem_keeps in Hset as (? & ? & ? & ? & ?); [|done].
  kept.
Qed.

(** X9. The invariant of the class: whatever sequence of reads, writes,
    [__iadd__], [full], [repr] and [len] a container goes through, as long as
    each call returns, its layout, its shape, its length, its [dtype] and its
    description stay what they were. *)
Theorem operations_keep_the_layout self (os : list operation) self' :
  wf self → for_in os (λ o s, after zero s o) self = Ok self' →
  wf self' ∧ shape self' = shape self ∧ __len__ self' = __len__ self ∧
  dtype self' = dtype self ∧ __repr__ self' = __repr__ self ∧
  __str__ self' = __repr__ self.
Proof.
  intros Hwf Hrun. unfold __len__.
  set (P := λ s : @t A DType, wf s ∧ unique s = unique self ∧ shape s = shape self ∧
                   sm1 s = sm1 self ∧ dtype s = dtype self).
  assert (P self') as (Hw & Hu & Hs & _ & Hd).
  { eapply (for_in_preserves P); [|exact Hrun|unfold P; kept].
    intros o s s1 Hafter (Hw & Hu & Hs & Hm & Hd).
    destruct o as [ks|ks v|v| | |]; simpl in Hafter.
    - destruct (__getitem__ s ks); [|done]. injection Hafter as <-. kept.
    - apply setitem_keeps in Hafter as (? & ? & ? & ? & ?); [|done].
      kept.
    - destruct (__iadd__ s v) as [r|] eqn:Hr; [|done]. injection Hafter as <-.
      apply iadd_keeps in Hr as (? & ? & ? & ? & ?); [|done].
      kept.
    - destruct (full zero s); [|done]. injection Hafter as <-. kept.
    - injection Hafter as <-. kept.
    - injection Hafter as <-. kept. }
  repeat (split; [done|]). unfold __str__, __repr__. by rewrite Hu, Hs.
Qed.

(** X10. What [__iadd__] does to a container: it returns, every pair off the
    diagonal then reads [value] whatever it read before, every diagonal pair
    reads what it read before, and the layout and the length are kept. *)
Theorem iadd_effect self v :
  wf self →
  ∃ self', __iadd__ self v = Ok (self', RNone) ∧ wf self' ∧
    __len__ self' = __len__ self ∧
    (∀ i, 0 ≤ i < shape self →
       __getitem__ self' (KTuple [i; i]) = __getitem__ self (KTuple [i; i])) ∧
    (∀ c d, 0 ≤ c < shape self → 0 ≤ d < shape self → c ≠ d →
       __getitem__ self' (KTuple [c; d]) = Ok v).
Proof.
  intros Hwf. pose proof Hwf as (_ & Hsm1 & _).
  destruct (iadd_spec self v Hwf) as (self' & Hrun & Hwf' & Hu & Hs & Hget).
  pose proof Hwf' as (_ & Hsm1' & _).
  exists self'. repeat (split; [done|]). split.
  - intros i Hi. rewrite !getitem_keys by lia. rewrite Hget by done.
    by rewrite decide_True.
  - intros c d Hc Hd Hne. rewrite getitem_keys by lia. rewrite Hget by done.
    by rewrite decide_False.
Qed.

(** X11. [__iadd__] does not accumulate: applied after another [__iadd__], it
    leaves the container it leaves when applied alone. *)
Theorem iadd_absorbs_iadd self v w :
  wf self →
  (r ← __iadd__ self w; __iadd__ r.1 v) = __iadd__ self v ∧
  is_ok (__iadd__ self v) = true.
Proof.
  intros Hwf.
  destruct (iadd_spec self w Hwf) as (s1 & Hrun1 & Hwf1 & Hu1 & Hs1 & Hget1).
  destruct (iadd_spec s1 v Hwf1) as (s2 & Hrun2 & Hwf2 & Hu2 & Hs2 & Hget2).
  destruct (iadd_spec self v Hwf) as (s3 & Hrun3 & Hwf3 & Hu3 & Hs3 & Hget3).
  rewrite Hrun1. simpl. rewrite Hrun2, Hrun3. split; [|done].
  do 2 f_equal. apply wf_ext; [done|done|congruence|congruence| |].
  - apply iadd_keeps in Hrun1 as (_ & _ & _ & _ & Hd1); [|done].
    apply iadd_keeps in Hrun2 as (_ & _ & _ & _ & Hd2); [|done].
    apply iadd_keeps in Hrun3 as (_ & _ & _ & _ & Hd3); [|done].
    simpl in *. congruence.
  - intros c d Hc Hd. rewrite Hs2, Hs1 in Hc, Hd.
    rewrite Hget2, Hget3 by (rewrite ?Hs1; done).
    destruct (decide (c = d)); [|done]. rewrite Hget1 by done.
    by rewrite decide_True.
Qed.

(** X12. [full] after [__iadd__]: the table holds [value] off the diagonal
    and zero on it, whatever the container held. *)
Theorem full_after_iadd self v :
  wf self →
  ∃ self' D, __iadd__ self v = Ok (self', RNone) ∧ full zero self' = Ok D ∧
    square (shape self) D ∧
    ∀ c d, 0 ≤ c < shape self → 0 ≤ d < shape self →
      py_getitem2 D c d = Ok (if decide (c = d) then zero else v).
Proof.
  intros Hwf.
  destruct (iadd_spec self v Hwf) as (s1 & Hrun & Hwf1 & _ & Hs1 & Hget).
  destruct (full_spec zero s1 Hwf1) as (D & Hfull & Hsq & Hread).
  exists s1, D. rewrite Hs1 in Hsq, Hread. repeat (split; [done|]).
  intros c d Hc Hd. rewrite Hread by done.
  destruct (decide (c = d)); [done|]. rewrite Hget by done.
  by rewrite decide_False.
Qed.

(** X13. A container of size 1 has no pair off the diagonal: [__iadd__]
    leaves it as it is, and [full] returns the table of a single zero; the one
    stored item does not reach it. *)
Theorem size_one_has_no_pairs self v :
  shape self = 1 →
  __iadd__ self v = Ok (self, RNone) ∧ full zero self = Ok [[zero]].
Proof.
  intros Hs. unfold __iadd__, full. rewrite Hs. done.
Qed.

(** X14. The constructor returns exactly when [N >= 1], whatever the fill
    function returns; for [N <= 0] the loop body never runs and
    [self.values[0]] raises [IndexError]. *)
Theorem init_returns_iff (N : Z) fill_function args kwargs :
  is_ok (__init__ dtype_of N fill_function args kwargs) = bool_decide (1 ≤ N) ∧
  (N ≤ 0 → __init__ dtype_of N fill_function args kwargs
             = Raise (IndexError SubscriptOutOfRange)).
Proof.
  split.
  - case_bool_decide.
    + by rewrite init_values.
    + by rewrite init_empty by lia.
  - apply init_empty.
Qed.

(** X15. With [N >= 1] and a fill function that returns blocks of the
    requested length, the constructor returns a container with the layout,
    of shape [N] and length [N (N + 1) / 2], whose segment [i] is what the
    fill function returned for the length [N - i] and the given
    configuration, and whose [dtype] is that of segment 0. *)
Theorem init_builds_the_layout (N : Z) fill_function args kwargs :
  1 ≤ N →
  (∀ n, 0 ≤ n → length (fill_function n args kwargs) = Z.to_nat n) →
  ∃ self, __init__ dtype_of N fill_function args kwargs = Ok self ∧
    wf self ∧ shape self = N ∧ __len__ self = N * (N + 1) / 2 ∧
    dtype self = dtype_of (fill_function N args kwargs) ∧
    ∀ i, 0 ≤ i < N →
      values self !! Z.to_nat i = Some (fill_function (N - i) args kwargs).
Proof.
  intros HN Hfill. eexists. split; [by apply init_values|].
  split; [|split; [done|split; [done|split; [done|]]]].
  - eapply init_wf; [exact Hfill|]. by apply init_values.
  - intros i Hi. simpl. by rewrite list_lookup_fmap, lookup_xrange.
Qed.

(** X16. A fresh container reads what the fill function produced: [self[a, b]]
    is item [max - min] of the block returned for the length [N - min]. *)
Theorem fresh_container_reads_the_fill (N : Z) fill_function args kwargs (a b : Z) x :
  0 ≤ a < N → 0 ≤ b < N →
  fill_function (N - Z.min a b) args kwargs !! Z.to_nat (Z.max a b - Z.min a b) = Some x →
  ∃ self, __init__ dtype_of N fill_function args kwargs = Ok self ∧
          __getitem__ self (KTuple [a; b]) = Ok x.
Proof.
  intros Ha Hb Hx. eexists. split; [apply init_values; lia|].
  rewrite getitem_keys by (simpl; lia).
  apply getitem_slot; simpl; [lia..|]. unfold slot, entry. simpl.
  rewrite list_lookup_fmap, lookup_xrange by lia. done.
Qed.
End Lifetime2D.

(** ** SymmetricArray3d: reads, writes and the invariant *)

Lemma rect_length {T} (R C : Z) (D : list (list T)) :
  rect R C D → length D = Z.to_nat R.
Proof.
  intros Hrect. apply (f_equal length) in Hrect.
  by rewrite length_fmap, length_replicate in Hrect.
Qed.

Lemma rect_row {T} (R C : Z) (D : list (list T)) (i : Z) :
  rect R C D → 0 ≤ i < R →
  ∃ row, D !! Z.to_nat i = Some row ∧ length row = Z.to_nat C.
Proof.
  intros Hrect Hi.
  assert ((length <$> D) !! Z.to_nat i = Some (Z.to_nat C)) as Hl.
  { rewrite Hrect. apply lookup_replicate_2. lia. }
  rewrite list_lookup_fmap in Hl.
  destruct (D !! Z.to_nat i) as [row|]; [|done].
  exists row. split; [done|]. by injection Hl.
Qed.

(** In a table of [R] rows of length [C], a column counted from the end
    reads the column [C + j]. *)
Lemma rect_read_from_end {T} (R C : Z) (D : list (list T)) (i j : Z) :
  rect R C D → 0 ≤ i < R → - C ≤ j < 0 →
  ∃ x, py_getitem2 D i j = Ok x ∧ py_getitem2 D i (C + j) = Ok x.
Proof.
  intros Hrect Hi Hj. destruct (rect_row R C D i Hrect Hi) as (row & Hrow & Hlen).
  assert (is_Some (row !! Z.to_nat (C + j))) as [x Hx] by (apply lookup_lt_is_Some; lia).
  exists x. split.
  - apply py_getitem2_pos with (Z.to_nat i) (Z.to_nat (C + j)) row; [|done| |done].
    + apply py_index_nonneg. apply lookup_lt_Some in Hrow. lia.
    + rewrite py_index_neg by lia. do 2 f_equal. lia.
  - apply py_getitem2_nonneg; [lia..|]. unfold entry. by rewrite Hrow.
Qed.

(** A row past the last one, or a column outside [[-C, C)], raises. *)
Lemma rect_read_outside {T} (R C : Z) (D : list (list T)) (i j : Z) :
  rect R C D → 0 ≤ i → R ≤ i ∨ j < - C ∨ C ≤ j →
  py_getitem2 D i j = Raise (IndexError SubscriptOutOfRange).
Proof.
  intros Hrect Hi Hout. pose proof (rect_length R C D Hrect) as Hlen.
  unfold py_getitem2.
  destruct (decide (R ≤ i)) as [HR|HR].
  - rewrite py_getitem_outside by lia. done.
  - destruct (rect_row R C D i Hrect) as (row & Hrow & Hl); [lia|].
    rewrite (py_getitem_nonneg _ _ row) by (lia || done). simpl.
    apply py_getitem_outside. lia.
Qed.

Section More3D.
Import SymmetricArray3d.
Context {A DType : Type} (getsizeof : list (list A) → Z).
Implicit Types (self : @t A DType) (v w x : A).

Lemma wf_length3 self : wf self → length (values self) = Z.to_nat (shape self).
Proof.
  intros (_ & _ & Hlen). apply (f_equal length) in Hlen.
  rewrite length_fmap in Hlen. rewrite Hlen. unfold prism, xrange.
  rewrite length_fmap, length_seqZ. lia.
Qed.

(** The block a pair of keys selects, when it selects one: the pair is in
    [[0, N)], or both keys are in [[-N, -1]]; the block has as many rows as
    the offset needs. *)
Lemma pair_block self (a b : Z) :
  wf self →
  (0 ≤ a < shape self ∧ 0 ≤ b < shape self) ∨
  (- shape self ≤ a < 0 ∧ - shape self ≤ b < 0) →
  ∃ block R, py_getitem (values self) (Z.min a b) = Ok block ∧
    rect R (shape self) block ∧ 0 ≤ Z.max a b - Z.min a b < R.
Proof.
  intros Hwf Hab. pose proof (wf_length3 self Hwf) as Hlen.
  destruct Hab as [[Ha Hb]|[Ha Hb]].
  - destruct (wf_block self (Z.min a b) Hwf) as (block & Hblock & Hrect); [lia|].
    exists block, (shape self - Z.min a b).
    split; [by apply py_getitem_nonneg; [lia|]|]. split; [done|lia].
  - destruct (wf_block self (shape self + Z.min a b) Hwf) as (block & Hblock & Hrect); [lia|].
    exists block, (shape self - (shape self + Z.min a b)).
    split; [|split; [done|lia]].
    apply py_getitem_pos with (Z.to_nat (shape self + Z.min a b)); [|done].
    rewrite py_index_neg by lia. do 2 f_equal. lia.
Qed.

(** Any other pair of keys, neither above [sm1], selects no item. *)
Lemma pair_outside self (a b k : Z) :
  wf self → a ≤ sm1 self → b ≤ sm1 self → k ≤ sm1 self →
  ¬ ((0 ≤ a < shape self ∧ 0 ≤ b < shape self) ∨
     (- shape self ≤ a < 0 ∧ - shape self ≤ b < 0)) →
  getitem self a b k = Raise (IndexError SubscriptOutOfRange).
Proof.
  intros Hwf Ha Hb Hk Hout. pose proof Hwf as (HN & Hsm1 & _).
  pose proof (wf_length3 self Hwf) as Hlen.
  unfold getitem. rewrite !bool_decide_eq_false_2 by lia.
  destruct (decide (Z.min a b < - shape self)) as [Hlow|Hlow].
  - rewrite py_getitem_outside by lia. done.
  - destruct (wf_block self (shape self + Z.min a b) Hwf) as (block & Hblock & Hrect); [lia|].
    rewrite (py_getitem_pos _ _ (Z.to_nat (shape self + Z.min a b)) block); [|..|done].
    + simpl. apply (rect_read_outside _ _ _ _ _ Hrect); lia.
    + rewrite py_index_neg by lia. do 2 f_equal. lia.
Qed.

Lemma setitem_ok_iff3 self (a b k : Z) v :
  is_ok (setitem self a b k v) = is_ok (getitem self a b k).
Proof.
  unfold setitem, getitem. repeat case_bool_decide; try done.
  unfold py_getitem, py_setitem.
  destruct (py_index (length (values self)) (Z.min a b)) as [n|]; [simpl|done].
  destruct (values self !! n) as [block|]; [simpl|done].
  rewrite <- (py_setitem2_ok_iff _ _ _ v).
  by destruct (py_setitem2 _ _ _ _).
Qed.

(** X17. Which triples of keys a 3-d container of size [N] accepts: the first
    two both in [[0, N)] or both in [[-N, -1]], the third in [[-N, N)]; and a
    write returns exactly when the read of the same subscript does. *)
Theorem getitem3d_returns_iff self (a b k : Z) :
  wf self →
  (is_ok (__getitem__ self (KTuple [a; b; k])) = true ↔
     ((0 ≤ a < shape self ∧ 0 ≤ b < shape self) ∨
      (- shape self ≤ a < 0 ∧ - shape self ≤ b < 0)) ∧
     - shape self ≤ k < shape self) ∧
  (∀ ks v, is_ok (__setitem__ self ks v) = is_ok (__getitem__ self ks)).
Proof.
  intros Hwf. pose proof Hwf as (HN & Hsm1 & _). split.
  - destruct (decide (a ≤ sm1 self ∧ b ≤ sm1 self ∧ k ≤ sm1 self)) as [(Ha & Hb & Hk)|Hbig].
    + rewrite getitem_keys3 by done.
      destruct (decide ((0 ≤ a < shape self ∧ 0 ≤ b < shape self) ∨
                        (- shape self ≤ a < 0 ∧ - shape self ≤ b < 0))) as [Hab|Hab].
      * destruct (pair_block self a b Hwf Hab) as (block & R & Hblock & Hrect & Hoff).
        unfold getitem. rewrite !bool_decide_eq_false_2 by lia. rewrite Hblock. simpl.
        destruct (decide (- shape self ≤ k)) as [Hk0|Hk0].
        -- destruct (decide (k < 0)) as [Hneg|Hneg].
           ++ destruct (rect_read_from_end _ _ _ _ k Hrect Hoff) as (x & -> & _); [lia|].
              simpl. split; [intros _; split; [done|lia]|done].
           ++ destruct (rect_entry _ _ _ _ k Hrect Hoff) as [x Hx]; [lia|].
              rewrite (py_getitem2_nonneg _ _ _ x) by (lia || done).
              simpl. split; [intros _; split; [done|lia]|done].
        -- rewrite (rect_read_outside _ _ _ _ _ Hrect) by lia. simpl.
           split; [done|]. intros [_ ?]. lia.
      * rewrite pair_outside by done. simpl. split; [done|]. by intros [? _].
    + destruct (check_keys_range 3 (sm1 self) [a; b; k] eq_refl) as (key & _ & _ & Hc).
      { destruct (decide (a ≤ sm1 self)); [|exists a; split; [left|lia]].
        destruct (decide (b ≤ sm1 self)); [|exists b; split; [right; left|lia]].
        exists k. split; [right; right; left|lia]. }
      unfold __getitem__. rewrite Hc. simpl. split; [done|]. lia.
  - intros ks v. unfold __setitem__, __getitem__.
    destruct (check_keys 3 (sm1 self) ks) as [l|]; [simpl|done].
    destruct (py_getitem l 0) as [k0|]; [simpl|done].
    destruct (py_getitem l 1) as [k1|]; [simpl|done].
    destruct (py_getitem l 2) as [k2|]; [simpl|done].
    apply setitem_ok_iff3.
Qed.

(** X18. The third key may count from the end: for a pair in range and [k] in
    [[-N, -1]], [self[i, j, k]] is [self[i, j, N + k]], for reads and for
    writes. *)
Theorem third_key_wraps self (i j k : Z) v :
  wf self → 0 ≤ i < shape self → 0 ≤ j < shape self → - shape self ≤ k < 0 →
  (∃ x, __getitem__ self (KTuple [i; j; k]) = Ok x ∧
        __getitem__ self (KTuple [i; j; shape self + k]) = Ok x) ∧
  (∃ self', __setitem__ self (KTuple [i; j; k]) v = Ok self' ∧
            __setitem__ self (KTuple [i; j; shape self + k]) v = Ok self').
Proof.
  intros Hwf Hi Hj Hk. pose proof Hwf as (HN & Hsm1 & _).
  destruct (wf_block self (Z.min i j) Hwf) as (block & Hblock & Hrect); [lia|].
  assert (py_getitem (values self) (Z.min i j) = Ok block) as Hget
    by (apply py_getitem_nonneg; [lia|done]).
  destruct (rect_row _ _ block (Z.max i j - Z.min i j) Hrect) as (row & Hrow & Hlen); [lia|].
  rewrite !getitem_keys3, !setitem_keys3 by lia. split.
  - destruct (rect_read_from_end _ _ _ (Z.max i j - Z.min i j) k Hrect) as (x & Hx & Hx');
      [lia|lia|].
    exists x. unfold getitem. rewrite !bool_decide_eq_false_2 by lia.
    rewrite Hget. simpl. done.
  - unfold setitem. rewrite !bool_decide_eq_false_2 by lia. rewrite Hget. simpl.
    assert (py_index (length block) (Z.max i j - Z.min i j)
            = Some (Z.to_nat (Z.max i j - Z.min i j))) as Hn.
    { apply py_index_nonneg. apply lookup_lt_Some in Hrow. lia. }
    rewrite (py_setitem2_pos block _ k _ (Z.to_nat (shape self + k)) row v Hn Hrow).
    + rewrite (py_setitem2_pos block _ (shape self + k) _ (Z.to_nat (shape self + k))
                 row v Hn Hrow); [|apply py_index_nonneg; lia].
      simpl. apply lookup_lt_Some in Hblock.
      rewrite (py_setitem_pos _ _ (Z.to_nat (Z.min i j))) by (apply py_index_nonneg; lia).
      eexists. done.
    + rewrite py_index_neg by lia. do 2 f_equal. lia.
Qed.

(** X19. A write changes no other item: after [self[i, j, k] = v] every triple
    in range other than [(i, j, k)] and [(j, i, k)] reads what it read
    before. *)
Theorem setitem3d_leaves_other_triples self (i j k : Z) v :
  wf self → 0 ≤ i < shape self → 0 ≤ j < shape self → 0 ≤ k < shape self →
  ∃ self', __setitem__ self (KTuple [i; j; k]) v = Ok self' ∧
    ∀ c d e, 0 ≤ c < shape self → 0 ≤ d < shape self → 0 ≤ e < shape self →
      ¬ (c = i ∧ d = j ∧ e = k) → ¬ (c = j ∧ d = i ∧ e = k) →
      __getitem__ self' (KTuple [c; d; e]) = __getitem__ self (KTuple [c; d; e]).
Proof.
  intros Hwf Hi Hj Hk. pose proof Hwf as (_ & Hsm1 & _).
  destruct (setitem_getitem3 self i j k v Hwf Hi Hj Hk)
    as (self' & Hset & (_ & Hsm1' & _) & _ & Hshape & Hget).
  exists self'. rewrite setitem_keys3 by lia. split; [done|].
  intros c d e Hc Hd He Hne1 Hne2. rewrite !getitem_keys3 by lia.
  rewrite Hget by done. by rewrite decide_False by lia.
Qed.

(** X20. Access is symmetric in the first two keys on any object of the class,
    whatever its layout: with both at most [sm1], the two orders read the
    same item or raise the same error, and write the same container. *)
Theorem access_is_symmetric_3d self (a b k : Z) v :
  a ≤ sm1 self → b ≤ sm1 self →
  getitem self a b k = getitem self b a k ∧
  setitem self a b k v = setitem self b a k v.
Proof.
  intros Ha Hb. split; [by apply getitem_comm3|].
  unfold setitem. rewrite !bool_decide_eq_false_2 by lia.
  by rewrite (Z.min_comm a b), (Z.max_comm a b).
Qed.

(** A write that returns keeps the row lengths of every block and every
    attribute. *)
Lemma setitem_keeps3 self (ks : keys) v self' :
  __setitem__ self ks v = Ok self' →
  (λ block : list (list A), length <$> block) <$> values self'
    = (λ block : list (list A), length <$> block) <$> values self ∧
  unique self' = unique self ∧ shape self' = shape self ∧
  sm1 self' = sm1 self ∧ dtype self' = dtype self.
Proof.
  unfold __setitem__, setitem. intros Hset.
  destruct (check_keys 3 (sm1 self) ks) as [l|]; [simpl in Hset|done].
  destruct (py_getitem l 0) as [k0|]; [simpl in Hset|done].
  destruct (py_getitem l 1) as [k1|]; [simpl in Hset|done].
  destruct (py_getitem l 2) as [k2|]; [simpl in Hset|done].
  repeat case_bool_decide; try done.
  unfold py_getitem, py_setitem in Hset.
  destruct (py_index _ (Z.min k0 k1)) as [n|]; [simpl in Hset|done].
  destruct (values self !! n) as [block|] eqn:Hblock; [simpl in Hset|done].
  destruct (py_setitem2 block _ k2 v) as [block'|] eqn:Hb; [simpl in Hset|done].
  injection Hset as <-. simpl. split; [|done].
  apply py_setitem2_lengths in Hb.
  rewrite list_fmap_insert, Hb. apply list_insert_id.
  by rewrite list_lookup_fmap, Hblock.
Qed.

Lemma total_size_sizes self :
  total_size getsizeof self = foldl Z.add 0 (getsizeof <$> values self).
Proof.
  unfold total_size. generalize 0. induction (values self) as [|array l IH]; [done|].
  intros acc. simpl. apply IH.
Qed.

(** X21. The invariant of the 3-d class: a write that returns, whatever its
    keys, keeps the layout, the shape, the length, the [dtype] and
    the description; and it keeps [total_size] when the size of a block depends on the lengths of
    its rows only. *)
Theorem setitem3d_keeps_the_layout self (ks : keys) v self' :
  wf self →
  (∀ block block' : list (list A),
     length <$> block = length <$> block' → getsizeof block = getsizeof block') →
  __setitem__ self ks v = Ok self' →
  wf self' ∧ shape self' = shape self ∧ __len__ self' = __len__ self ∧
  dtype self' = dtype self ∧ __repr__ self' = __repr__ self ∧
  total_size getsizeof self' = total_size getsizeof self.
Proof.
  intros (HN & Hsm1 & Hlen) Hsize Hset.
  destruct (setitem_keeps3 self ks v self' Hset) as (Hl & Hu & Hs & Hm & Hd).
  split; [|split; [done|split; [done|split; [done|split]]]].
  - split; [lia|]. split; [congruence|]. by rewrite Hl, Hs.
  - unfold __repr__. by rewrite Hu, Hs.
  - rewrite !total_size_sizes. f_equal.
    apply list_eq. intros n. rewrite !list_lookup_fmap.
    apply (f_equal (λ l, l !! n)) in Hl. rewrite !list_lookup_fmap in Hl.
    destruct (values self' !! n) as [b'|], (values self !! n) as [b|];
      simpl in *; try done.
    f_equal. apply Hsize. congruence.
Qed.
End More3D.


(** ** The further properties at concrete containers *)

Lemma setitem_leaves_other_pairs_at_zeros3 :
  SymmetricArray.wf zeros3 ∧ 0 ≤ 0 < 3 ∧ 0 ≤ 2 < 3 ∧
  ∃ self', SymmetricArray.__setitem__ zeros3 (KTuple [0; 2]) 7 = Ok self' ∧
    ∀ c d, 0 ≤ c < 3 → 0 ≤ d < 3 → ¬ (c = 0 ∧ d = 2) → ¬ (c = 2 ∧ d = 0) →
      SymmetricArray.__getitem__ self' (KTuple [c; d])
        = SymmetricArray.__getitem__ zeros3 (KTuple [c; d]).
Proof.
  assert (SymmetricArray.wf zeros3) as Hwf by layout.
  assert (0 ≤ 0 < 3) as H0 by lia.
  assert (0 ≤ 2 < 3) as H2 by lia.
  exact (conj Hwf (conj H0 (conj H2 (setitem_leaves_other_pairs zeros3 0 2 7 Hwf H0 H2)))).
Defined.

Lemma setitem_overwrites_at_zeros3 :
  SymmetricArray.wf zeros3 ∧ 0 ≤ 0 < 3 ∧ 0 ≤ 2 < 3 ∧
  (s ← SymmetricArray.__setitem__ zeros3 (KTuple [0; 2]) 7;
   SymmetricArray.__setitem__ s (KTuple [2; 0]) 8)
    = SymmetricArray.__setitem__ zeros3 (KTuple [0; 2]) 8 ∧
  is_ok (SymmetricArray.__setitem__ zeros3 (KTuple [0; 2]) 8) = true.
Proof.
  assert (SymmetricArray.wf zeros3) as Hwf by layout.
  assert (0 ≤ 0 < 3) as H0 by lia.
  assert (0 ≤ 2 < 3) as H2 by lia.
  exact (conj Hwf (conj H0 (conj H2 (setitem_overwrites zeros3 0 2 7 8 Hwf H0 H2)))).
Defined.

Lemma setitem_commutes_at_zeros3 :
  SymmetricArray.wf zeros3 ∧ 0 ≤ 0 < 3 ∧ 0 ≤ 2 < 3 ∧ 0 ≤ 1 < 3 ∧
  ¬ (1 = 0 ∧ 2 = 2) ∧ ¬ (1 = 2 ∧ 2 = 0) ∧
  (s ← SymmetricArray.__setitem__ zeros3 (KTuple [0; 2]) 7;
   SymmetricArray.__setitem__ s (KTuple [1; 2]) 8)
    = (s ← SymmetricArray.__setitem__ zeros3 (KTuple [1; 2]) 8;
       SymmetricArray.__setitem__ s (KTuple [0; 2]) 7) ∧
  is_ok (s ← SymmetricArray.__setitem__ zeros3 (KTuple [0; 2]) 7;
         SymmetricArray.__setitem__ s (KTuple [1; 2]) 8) = true.
Proof.
  assert (SymmetricArray.wf zeros3) as Hwf by layout.
  assert (0 ≤ 0 < 3) as H0 by lia.
  assert (0 ≤ 2 < 3) as H2 by lia.
  assert (0 ≤ 1 < 3) as H1 by lia.
  assert (¬ (1 = 0 ∧ 2 = 2)) as Hn1 by lia.
  assert (¬ (1 = 2 ∧ 2 = 0)) as Hn2 by lia.
  exact (conj Hwf (conj H0 (conj H2 (conj H1 (conj Hn1 (conj Hn2
           (setitem_commutes zeros3 0 2 1 2 7 8 Hwf H0 H2 H1 H2 Hn1 Hn2))))))).
Defined.

Lemma setitem_of_getitem_at_ones2 :
  SymmetricArray.wf ones2 ∧ 0 ≤ 0 < 2 ∧ 0 ≤ 1 < 2 ∧
  SymmetricArray.__getitem__ ones2 (KTuple [0; 1]) = Ok 1 ∧
  SymmetricArray.__setitem__ ones2 (KTuple [0; 1]) 1 = Ok ones2.
Proof.
  assert (SymmetricArray.wf ones2) as Hwf by layout.
  assert (0 ≤ 0 < 2) as H0 by lia.
  assert (0 ≤ 1 < 2) as H1 by lia.
  assert (SymmetricArray.__getitem__ ones2 (KTuple [0; 1]) = Ok 1) as Hg by reflexivity.
  exact (conj Hwf (conj H0 (conj H1 (conj Hg
           (setitem_of_getitem ones2 0 1 1 Hwf H0 H1 Hg))))).
Defined.

Lemma getitem_returns_iff_at_zeros3 :
  SymmetricArray.wf zeros3 ∧
  (is_ok (SymmetricArray.__getitem__ zeros3 (KTuple [-1; 1])) = true ↔
     (0 ≤ -1 < 3 ∧ 0 ≤ 1 < 3) ∨ (- 3 ≤ -1 < 0 ∧ - 3 ≤ 1 < 0)) ∧
  (-1 ≤ 3 - 1 → 1 ≤ 3 - 1 →
   is_ok (SymmetricArray.__getitem__ zeros3 (KTuple [-1; 1])) = false →
   SymmetricArray.__getitem__ zeros3 (KTuple [-1; 1])
     = Raise (IndexError SubscriptOutOfRange)).
Proof.
  assert (SymmetricArray.wf zeros3) as Hwf by layout.
  exact (conj Hwf (getitem_returns_iff zeros3 (-1) 1 Hwf)).
Defined.

Lemma first_key_out_of_range_is_reported_at_zeros3 :
  SymmetricArray.sm1 zeros3 = SymmetricArray.shape zeros3 - 1 ∧
  length ([1] ++ 5 :: []) = 2%nat ∧ Forall (λ k, k < 3) [1] ∧ 3 ≤ 5 ∧
  SymmetricArray.__getitem__ zeros3 (KTuple ([1] ++ 5 :: []))
    = Raise (IndexError (KeyOutOfRange 5)) ∧
  SymmetricArray.__setitem__ zeros3 (KTuple ([1] ++ 5 :: [])) 7
    = Raise (IndexError (KeyOutOfRange 5)).
Proof.
  assert (SymmetricArray.sm1 zeros3 = SymmetricArray.shape zeros3 - 1) as Hsm1
    by reflexivity.
  assert (length ([1] ++ 5 :: []) = 2%nat) as Hlen by reflexivity.
  assert (Forall (λ k, k < 3) [1]) as Hpre by (repeat constructor; lia).
  assert (3 ≤ 5) as Hkey by lia.
  exact (conj Hsm1 (conj Hlen (conj Hpre (conj Hkey
           (first_key_out_of_range_is_reported zeros3 [1] [] 5 7 Hsm1 Hlen Hpre Hkey))))).
Defined.

Lemma access_is_symmetric_at_zeros3 :
  -1 ≤ SymmetricArray.sm1 zeros3 ∧ 2 ≤ SymmetricArray.sm1 zeros3 ∧
  SymmetricArray.__getitem__ zeros3 (KTuple [-1; 2])
    = SymmetricArray.__getitem__ zeros3 (KTuple [2; -1]) ∧
  SymmetricArray.__setitem__ zeros3 (KTuple [-1; 2]) 7
    = SymmetricArray.__setitem__ zeros3 (KTuple [2; -1]) 7.
Proof.
  assert (-1 ≤ SymmetricArray.sm1 zeros3) as Ha by (simpl; lia).
  assert (2 ≤ SymmetricArray.sm1 zeros3) as Hb by (simpl; lia).
  exact (conj Ha (conj Hb (access_is_symmetric zeros3 (-1) 2 7 Ha Hb))).
Defined.

Lemma operations_keep_the_layout_at_zeros3 :
  let os := [SymmetricArray.OpSet (KTuple [0; 2]) 7; SymmetricArray.OpAddConstant 5;
             SymmetricArray.OpToDense; SymmetricArray.OpGet (KTuple [1; 1])] in
  let self' := SymmetricArray.mk 6 3 [[0; 5; 5]; [0; 5]; [0]] 2 tt in
  SymmetricArray.wf zeros3 ∧
  for_in os (λ o s, SymmetricArray.after 0 s o) zeros3 = Ok self' ∧
  SymmetricArray.wf self' ∧ SymmetricArray.shape self' = SymmetricArray.shape zeros3 ∧
  SymmetricArray.__len__ self' = SymmetricArray.__len__ zeros3 ∧
  SymmetricArray.dtype self' = SymmetricArray.dtype zeros3 ∧
  SymmetricArray.__repr__ self' = SymmetricArray.__repr__ zeros3 ∧
  SymmetricArray.__str__ self' = SymmetricArray.__repr__ zeros3.
Proof.
  intros os self'.
  assert (SymmetricArray.wf zeros3) as Hwf by layout.
  assert (for_in os (λ o s, SymmetricArray.after 0 s o) zeros3 = Ok self') as Hrun
    by reflexivity.
  exact (conj Hwf (conj Hrun (operations_keep_the_layout 0 zeros3 os self' Hwf Hrun))).
Defined.

Lemma iadd_effect_at_ones2 :
  SymmetricArray.wf ones2 ∧
  ∃ self', SymmetricArray.__iadd__ ones2 5 = Ok (self', RNone) ∧
    SymmetricArray.wf self' ∧
    SymmetricArray.__len__ self' = SymmetricArray.__len__ ones2 ∧
    (∀ i, 0 ≤ i < 2 →
       SymmetricArray.__getitem__ self' (KTuple [i; i])
         = SymmetricArray.__getitem__ ones2 (KTuple [i; i])) ∧
    (∀ c d, 0 ≤ c < 2 → 0 ≤ d < 2 → c ≠ d →
       SymmetricArray.__getitem__ self' (KTuple [c; d]) = Ok 5).
Proof.
  assert (SymmetricArray.wf ones2) as Hwf by layout.
  exact (conj Hwf (iadd_effect ones2 5 Hwf)).
Defined.

Lemma iadd_absorbs_iadd_at_ones2 :
  SymmetricArray.wf ones2 ∧
  (r ← SymmetricArray.__iadd__ ones2 3; SymmetricArray.__iadd__ r.1 5)
    = SymmetricArray.__iadd__ ones2 5 ∧
  is_ok (SymmetricArray.__iadd__ ones2 5) = true.
Proof.
  assert (SymmetricArray.wf ones2) as Hwf by layout.
  exact (conj Hwf (iadd_absorbs_iadd ones2 5 3 Hwf)).
Defined.

Lemma full_after_iadd_at_ones2 :
  SymmetricArray.wf ones2 ∧
  ∃ self' D, SymmetricArray.__iadd__ ones2 5 = Ok (self', RNone) ∧
    SymmetricArray.full 0 self' = Ok D ∧ square 2 D ∧
    ∀ c d, 0 ≤ c < 2 → 0 ≤ d < 2 →
      py_getitem2 D c d = Ok (if decide (c = d) then 0 else 5).
Proof.
  assert (SymmetricArray.wf ones2) as Hwf by layout.
  exact (conj Hwf (full_after_iadd 0 ones2 5 Hwf)).
Defined.

Lemma size_one_has_no_pairs_at_single4 :
  SymmetricArray.shape single4 = 1 ∧
  SymmetricArray.__iadd__ single4 5 = Ok (single4, RNone) ∧
  SymmetricArray.full 0 single4 = Ok [[0]].
Proof.
  assert (SymmetricArray.shape single4 = 1) as Hs by reflexivity.
  exact (conj Hs (size_one_has_no_pairs 0 single4 5 Hs)).
Defined.

Lemma init_builds_the_layout_at_3 :
  1 ≤ 3 ∧
  (∀ n, 0 ≤ n → length (zeros1 0 n tt tt) = Z.to_nat n) ∧
  ∃ self, SymmetricArray.__init__ no_dtype 3 (zeros1 0) tt tt = Ok self ∧
    SymmetricArray.wf self ∧ SymmetricArray.shape self = 3 ∧
    SymmetricArray.__len__ self = 3 * (3 + 1) / 2 ∧
    SymmetricArray.dtype self = no_dtype (zeros1 0 3 tt tt) ∧
    ∀ i, 0 ≤ i < 3 →
      SymmetricArray.values self !! Z.to_nat i = Some (zeros1 0 (3 - i) tt tt).
Proof.
  assert (1 ≤ 3) as HN by lia.
  assert (∀ n, 0 ≤ n → length (zeros1 0 n tt tt) = Z.to_nat n) as Hfill
    by (intros n _; apply length_replicate).
  exact (conj HN (conj Hfill
           (init_builds_the_layout no_dtype 3 (zeros1 0) tt tt HN Hfill))).
Defined.

Lemma fresh_container_reads_the_fill_at_3 :
  0 ≤ 2 < 3 ∧ 0 ≤ 1 < 3 ∧
  full1 (3 - Z.min 2 1) 7 tt !! Z.to_nat (Z.max 2 1 - Z.min 2 1) = Some 7 ∧
  ∃ self, SymmetricArray.__init__ no_dtype 3 full1 7 tt = Ok self ∧
          SymmetricArray.__getitem__ self (KTuple [2; 1]) = Ok 7.
Proof.
  assert (0 ≤ 2 < 3) as H2 by lia.
  assert (0 ≤ 1 < 3) as H1 by lia.
  assert (full1 (3 - Z.min 2 1) 7 tt !! Z.to_nat (Z.max 2 1 - Z.min 2 1) = Some 7) as Hx
    by reflexivity.
  exact (conj H2 (conj H1 (conj Hx
           (fresh_container_reads_the_fill no_dtype 3 full1 7 tt 2 1 7 H2 H1 Hx)))).
Defined.

Lemma getitem3d_returns_iff_at_cube2 :
  SymmetricArray3d.wf cube2 ∧
  (is_ok (SymmetricArray3d.__getitem__ cube2 (KTuple [-1; -2; -1])) = true ↔
     ((0 ≤ -1 < 2 ∧ 0 ≤ -2 < 2) ∨ (- 2 ≤ -1 < 0 ∧ - 2 ≤ -2 < 0)) ∧ - 2 ≤ -1 < 2) ∧
  (∀ ks v, is_ok (SymmetricArray3d.__setitem__ cube2 ks v)
           = is_ok (SymmetricArray3d.__getitem__ cube2 ks)).
Proof.
  assert (SymmetricArray3d.wf cube2) as Hwf by layout.
  exact (conj Hwf (getitem3d_returns_iff cube2 (-1) (-2) (-1) Hwf)).
Defined.

Lemma third_key_wraps_at_cube2 :
  SymmetricArray3d.wf cube2 ∧ 0 ≤ 0 < 2 ∧ 0 ≤ 1 < 2 ∧ - 2 ≤ -1 < 0 ∧
  (∃ x, SymmetricArray3d.__getitem__ cube2 (KTuple [0; 1; -1]) = Ok x ∧
        SymmetricArray3d.__getitem__ cube2 (KTuple [0; 1; 2 + -1]) = Ok x) ∧
  (∃ self', SymmetricArray3d.__setitem__ cube2 (KTuple [0; 1; -1]) 7 = Ok self' ∧
            SymmetricArray3d.__setitem__ cube2 (KTuple [0; 1; 2 + -1]) 7 = Ok self').
Proof.
  assert (SymmetricArray3d.wf cube2) as Hwf by layout.
  assert (0 ≤ 0 < 2) as H0 by lia.
  assert (0 ≤ 1 < 2) as H1 by lia.
  assert (- 2 ≤ -1 < 0) as Hk by lia.
  exact (conj Hwf (conj H0 (conj H1 (conj Hk
           (third_key_wraps cube2 0 1 (-1) 7 Hwf H0 H1 Hk))))).
Defined.

Lemma setitem3d_leaves_other_triples_at_cube2 :
  SymmetricArray3d.wf cube2 ∧ 0 ≤ 0 < 2 ∧ 0 ≤ 1 < 2 ∧
  ∃ self', SymmetricArray3d.__setitem__ cube2 (KTuple [0; 1; 1]) 7 = Ok self' ∧
    ∀ c d e, 0 ≤ c < 2 → 0 ≤ d < 2 → 0 ≤ e < 2 →
      ¬ (c = 0 ∧ d = 1 ∧ e = 1) → ¬ (c = 1 ∧ d = 0 ∧ e = 1) →
      SymmetricArray3d.__getitem__ self' (KTuple [c; d; e])
        = SymmetricArray3d.__getitem__ cube2 (KTuple [c; d; e]).
Proof.
  assert (SymmetricArray3d.wf cube2) as Hwf by layout.
  assert (0 ≤ 0 < 2) as H0 by lia.
  assert (0 ≤ 1 < 2) as H1 by lia.
  exact (conj Hwf (conj H0 (conj H1
           (setitem3d_leaves_other_triples cube2 0 1 1 7 Hwf H0 H1 H1)))).
Defined.

Lemma access_is_symmetric_3d_at_cube2 :
  0 ≤ SymmetricArray3d.sm1 cube2 ∧ 1 ≤ SymmetricArray3d.sm1 cube2 ∧
  SymmetricArray3d.getitem cube2 0 1 1 = SymmetricArray3d.getitem cube2 1 0 1 ∧
  SymmetricArray3d.setitem cube2 0 1 1 7 = SymmetricArray3d.setitem cube2 1 0 1 7.
Proof.
  assert (0 ≤ SymmetricArray3d.sm1 cube2) as Ha by (simpl; lia).
  assert (1 ≤ SymmetricArray3d.sm1 cube2) as Hb by (simpl; lia).
  exact (conj Ha (conj Hb (access_is_symmetric_3d cube2 0 1 1 7 Ha Hb))).
Defined.

Lemma setitem3d_keeps_the_layout_at_cube2 :
  let self' := SymmetricArray3d.mk 6 2 [[[0; 0]; [0; 0]]; [[0; 7]]] 1 tt in
  SymmetricArray3d.wf cube2 ∧
  (∀ block block' : list (list Z),
     length <$> block = length <$> block' → block_bytes block = block_bytes block') ∧
  SymmetricArray3d.__setitem__ cube2 (KTuple [-1; -1; -1]) 7 = Ok self' ∧
  SymmetricArray3d.wf self' ∧
  SymmetricArray3d.shape self' = SymmetricArray3d.shape cube2 ∧
  SymmetricArray3d.__len__ self' = SymmetricArray3d.__len__ cube2 ∧
  SymmetricArray3d.dtype self' = SymmetricArray3d.dtype cube2 ∧
  SymmetricArray3d.__repr__ self' = SymmetricArray3d.__repr__ cube2 ∧
  SymmetricArray3d.total_size block_bytes self'
    = SymmetricArray3d.total_size block_bytes cube2.
Proof.
  intros self'.
  assert (SymmetricArray3d.wf cube2) as Hwf by layout.
  assert (∀ block block' : list (list Z),
            length <$> block = length <$> block' → block_bytes block = block_bytes block')
    as Hsize by (intros block block' Heq; unfold block_bytes; by rewrite Heq).
  assert (SymmetricArray3d.__setitem__ cube2 (KTuple [-1; -1; -1]) 7 = Ok self') as Hset
    by reflexivity.
  exact (conj Hwf (conj Hsize (conj Hset
           (setitem3d_keeps_the_layout block_bytes cube2 (KTuple [-1; -1; -1]) 7 self'
              Hwf Hsize Hset)))).
Defined.

Lemma init_returns_iff_at_0 :
  is_ok (SymmetricArray.__init__ no_dtype 0 (zeros1 0) tt tt) = bool_decide (1 ≤ 0) ∧
  SymmetricArray.__init__ no_dtype 0 (zeros1 0) tt tt
    = Raise (IndexError SubscriptOutOfRange).
Proof.
  assert (0 ≤ 0) as H0 by lia.
  destruct (init_returns_iff no_dtype 0 (zeros1 0) tt tt) as [Hok Hraise].
  exact (conj Hok (Hraise H0)).
Defined.
